(** * bpmclock: the static-site build script [main.py]

    A shallow embedding of the build script and of the part of its two
    collaborators (the POSIX file system behind [pathlib]/[shutil], and the
    Jinja2 templating engine) that the script exercises, followed by the
    properties of the build pipeline.

    Conventions of the model.
    - A path is the list of its components below [Path(__file__).parent], the
      directory of the script; the empty list is that directory itself.
    - The file system is a finite map from paths to nodes (regular file with
      contents and metadata, or directory).  There are no symbolic links and
      no permission failures.
    - A computation threads a [world] (files, console output, clock, umask)
      and either returns a value or raises a Python exception; the world at
      the point of the raise is kept, because nothing is rolled back. *)

From Stdlib Require Import NArith Ascii String.
From stdpp Require Import base strings list gmap fin_maps.

Local Open Scope string_scope.
Local Open Scope list_scope.

(** ** Paths *)

Abbreviation path := (list string).

(** [Path.parent]: the logical parent; the anchor is its own parent. *)
Definition parent (p : path) : path := removelast p.

(** [Path.name]: the final component. *)
Definition name (p : path) : string := List.last p "".

(** [str(path)], relative to the directory of the script. *)
Definition path_str (p : path) : string :=
  match p with
  | [] => "."
  | _ => String.concat "/" p
  end.

(** ** File-system nodes *)

Record stat := Stat { st_mode : N; st_mtime : N }.

Inductive node :=
  | File (data : string) (st : stat)
  | Dir.

Global Instance stat_eq_dec : EqDecision stat.
Proof. solve_decision. Defined.

Global Instance node_eq_dec : EqDecision node.
Proof. solve_decision. Defined.

Abbreviation FS := (gmap path node).

(** The node a path resolves to; the anchor directory always exists. *)
Definition node_at (fs : FS) (p : path) : option node :=
  match p with
  | [] => Some Dir
  | _ => fs !! p
  end.

Definition is_dir_fs (fs : FS) (p : path) : bool :=
  match node_at fs p with Some Dir => true | _ => false end.

Definition is_file_fs (fs : FS) (p : path) : bool :=
  match node_at fs p with Some (File _ _) => true | _ => false end.

Definition exists_fs (fs : FS) (p : path) : bool :=
  match node_at fs p with Some _ => true | None => false end.

(** The name under which [p] is a direct child of [d], if it is one. *)
Fixpoint child_of (d p : path) : option string :=
  match d, p with
  | [], [n] => Some n
  | x :: d', y :: p' => if decide (x = y) then child_of d' p' else None
  | _, _ => None
  end.

(** The names of the entries of directory [d], in directory-listing order
    (here: the enumeration order of the map). *)
Definition listdir (fs : FS) (d : path) : list string :=
  omap (fun kv => child_of d (fst kv)) (map_to_list fs).

(** ** Exceptions, worlds and computations *)

Inductive exn :=
  | FileExistsError
  | FileNotFoundError
  | NotADirectoryError
  | IsADirectoryError
  | SameFileError
  | TemplateNotFound
  | TemplateSyntaxError
  | UndefinedError
  | EngineError (msg : string).

(** The exceptions that are file-system errors ([OSError] and subclasses). *)
Definition is_fs_error (e : exn) : bool :=
  match e with
  | FileExistsError | FileNotFoundError | NotADirectoryError
  | IsADirectoryError | SameFileError => true
  | _ => false
  end.

Record world := World {
  files : FS;
  stdout : list string;   (* lines printed so far, oldest first *)
  clock : N;              (* the time stamped on files written now *)
  umask : N               (* the process umask *)
}.

Inductive outcome (A : Type) :=
  | Ok (a : A) (w : world)
  | Raise (e : exn) (w : world).
Arguments Ok {A} a w.
Arguments Raise {A} e w.

Definition world_of {A} (o : outcome A) : world :=
  match o with Ok _ w => w | Raise _ w => w end.

Definition M (A : Type) : Type := world -> outcome A.

Definition ret {A} (a : A) : M A := fun w => Ok a w.

Definition bind {A B} (c : M A) (k : A -> M B) : M B :=
  fun w => match c w with
           | Ok a w' => k a w'
           | Raise e w' => Raise e w'
           end.

Definition raise {A} (e : exn) : M A := fun w => Raise e w.

Declare Scope build_scope.
Delimit Scope build_scope with build.
Notation "x <- c ;; k" := (bind c (fun x => k))
  (at level 100, c at next level, right associativity) : build_scope.
Notation "c ;; k" := (bind c (fun _ => k))
  (at level 100, right associativity) : build_scope.
Local Open Scope build_scope.

(** [try: c except e: h e] for the exceptions selected by the handler. *)
Definition try_except {A} (c : M A) (h : exn -> option (M A)) : M A :=
  fun w => match c w with
           | Ok a w' => Ok a w'
           | Raise e w' => match h e with
                           | Some k => k w'
                           | None => Raise e w'
                           end
           end.

(** [for x in l: body x] *)
Fixpoint for_each {A} (l : list A) (body : A -> M unit) : M unit :=
  match l with
  | [] => ret tt
  | x :: l' => body x ;; for_each l' body
  end.

Definition get_files : M FS := fun w => Ok (files w) w.

Definition set_files (fs : FS) : M unit :=
  fun w => Ok tt (World fs (stdout w) (clock w) (umask w)).

(** [print(line)] *)
Definition print (line : string) : M unit :=
  fun w => Ok tt (World (files w) (stdout w ++ [line]) (clock w) (umask w)).

(** ** The file-system calls the script relies on *)

(** [os.mkdir(p)] *)
Definition os_mkdir (p : path) : M unit :=
  fs <- get_files ;;
  match node_at fs (parent p) with
  | None => raise FileNotFoundError
  | Some (File _ _) => raise NotADirectoryError
  | Some Dir =>
      if exists_fs fs p then raise FileExistsError
      else set_files (<[p := Dir]> fs)
  end.

(** [Path.is_dir()], [Path.is_file()], [Path.exists()] *)
Definition is_dir (p : path) : M bool := fs <- get_files ;; ret (is_dir_fs fs p).
Definition is_file (p : path) : M bool := fs <- get_files ;; ret (is_file_fs fs p).
Definition exists_ (p : path) : M bool := fs <- get_files ;; ret (exists_fs fs p).

(** [Path.mkdir(parents=False, exist_ok=...)]: one [os.mkdir]; an [OSError]
    is swallowed only when [exist_ok] is set and the path is a directory. *)
Definition mkdir_single (exist_ok : bool) (p : path) : M unit :=
  try_except (os_mkdir p) (fun e =>
    Some (d <- is_dir p ;;
          if negb exist_ok || negb d then raise e else ret tt)).

(** [Path.mkdir(parents=True, exist_ok=True)] on the path whose components,
    last first, are [rp]: the recursion of [pathlib] on [self.parent]. *)
Fixpoint mkdir_parents (rp : list string) : M unit :=
  match rp with
  | [] => mkdir_single true []
  | _ :: rp' =>
      try_except (os_mkdir (rev rp)) (fun e =>
        match e with
        | FileNotFoundError =>
            Some (mkdir_parents rp' ;; mkdir_single true (rev rp))
        | _ =>
            Some (d <- is_dir (rev rp) ;;
                  if negb d then raise e else ret tt)
        end)
  end.

(** [Path.mkdir(parents=..., exist_ok=...)] *)
Definition mkdir (parents exist_ok : bool) (p : path) : M unit :=
  try_except (os_mkdir p) (fun e =>
    match e with
    | FileNotFoundError =>
        if negb parents || bool_decide (parent p = p) then None
        else Some (mkdir_parents (rev (parent p)) ;; mkdir_single exist_ok p)
    | _ =>
        Some (d <- is_dir p ;;
              if negb exist_ok || negb d then raise e else ret tt)
    end).

(** [open(p, 'rb').read()], together with the metadata of the file *)
Definition read_file (p : path) : M (string * stat) :=
  fs <- get_files ;;
  match node_at fs p with
  | None => raise FileNotFoundError
  | Some Dir => raise IsADirectoryError
  | Some (File data st) => ret (data, st)
  end.

(** The mode of a file that [open] creates: [0o666 & ~umask]. *)
Definition new_file_mode (um : N) : N := N.ldiff 438 um.
Global Arguments new_file_mode : simpl never.

(** [with open(p, 'w') as f: f.write(data)]: the file is created or
    truncated (mode kept), and stamped with the clock. *)
Definition write_file (p : path) (data : string) : M unit :=
  fs <- get_files ;;
  fun w =>
    match node_at fs p with
    | Some Dir => Raise IsADirectoryError w
    | Some (File _ st) =>
        set_files (<[p := File data (Stat (st_mode st) (clock w))]> fs) w
    | None =>
        match node_at fs (parent p) with
        | None => Raise FileNotFoundError w
        | Some (File _ _) => Raise NotADirectoryError w
        | Some Dir =>
            set_files
              (<[p := File data (Stat (new_file_mode (umask w)) (clock w))]> fs) w
        end
    end.

(** [shutil.copyfile(src, dst)] *)
Definition copyfile (src dst : path) : M unit :=
  fs <- get_files ;;
  if bool_decide (src = dst) && exists_fs fs src then raise SameFileError
  else
    r <- read_file src ;;
    write_file dst (fst r).

(** [shutil.copystat(src, dst)]: mode bits and modification time of [src]
    are put on [dst].  Directories carry no metadata in the model. *)
Definition copystat (src dst : path) : M unit :=
  fs <- get_files ;;
  match node_at fs src, node_at fs dst with
  | None, _ | _, None => raise FileNotFoundError
  | Some (File _ st), Some (File d _) => set_files (<[dst := File d st]> fs)
  | _, _ => ret tt
  end.

(** [shutil.copy2(src, dst)]: when [dst] is a directory the file goes inside
    it under the name of [src]. *)
Definition copy2 (src dst : path) : M unit :=
  fs <- get_files ;;
  let dst := if is_dir_fs fs dst then dst ++ [name src] else dst in
  copyfile src dst ;;
  copystat src dst.

(** [name.endswith(ext)] *)
Definition ends_with (ext s : string) : bool :=
  let n := String.length s in
  let e := String.length ext in
  (e <=? n)%nat && String.eqb (substring (n - e) e s) ext.

(** [fnmatch] for the two shapes of pattern the script uses: a literal
    name, or [*] followed by a literal suffix. Matching is case-sensitive and
    does not treat a leading dot specially, as in [pathlib]. *)
Definition fnmatch (pattern s : string) : bool :=
  match pattern with
  | String "*"%char ext => ends_with ext s
  | _ => String.eqb pattern s
  end.

(** [Path.glob(pattern)] for a one-component pattern: the entries of the
    directory whose name matches, of whatever kind; nothing when the path is
    not a directory. *)
Definition glob (d : path) (pattern : string) : M (list path) :=
  fs <- get_files ;;
  if is_dir_fs fs d
  then ret (map (fun n => d ++ [n]) (filter (fun n => fnmatch pattern n = true) (listdir fs d)))
  else ret [].

(** [Path.iterdir()] *)
Definition iterdir (d : path) : M (list path) :=
  fs <- get_files ;;
  match node_at fs d with
  | None => raise FileNotFoundError
  | Some (File _ _) => raise NotADirectoryError
  | Some Dir => ret (map (fun n => d ++ [n]) (listdir fs d))
  end.

(** ** The templating engine, as the script sees it *)

(** How a name that the context lacks evaluates: Jinja2's [undefined]
    argument, [Undefined] unless the caller says otherwise. *)
Inductive undefined_kind := Undefined | StrictUndefined.

(** [jinja2.Environment]: the options the script passes, and the two defaults
    that decide what a rendered page looks like. *)
Record Environment := {
  loader : path;                    (* FileSystemLoader search path *)
  autoescape : bool;
  trim_blocks : bool;
  lstrip_blocks : bool;
  undefined : undefined_kind;
  keep_trailing_newline : bool
}.

(** [Environment(loader=FileSystemLoader(d), autoescape=a, trim_blocks=t,
    lstrip_blocks=l)]: every other option keeps its default.  Nothing on
    disk is looked at. *)
Definition new_Environment (d : path) (a t l : bool) : Environment :=
  {| loader := d; autoescape := a; trim_blocks := t; lstrip_blocks := l;
     undefined := Undefined; keep_trailing_newline := false |}.

(** The render context: string keys, string values. *)
Abbreviation context := (gmap string string).

(** [s.split(c)] *)
Fixpoint split_on (c : ascii) (s : string) : list string :=
  match s with
  | EmptyString => [EmptyString]
  | String a s' =>
      if Ascii.eqb a c then EmptyString :: split_on c s'
      else match split_on c s' with
           | h :: t => String a h :: t
           | [] => [String a EmptyString]
           end
  end.

(** [jinja2.loaders.split_template_path]: empty and [.] pieces are dropped,
    a [..] piece makes the name unresolvable. *)
Definition split_template_path (template_name : string) : option (list string) :=
  let pieces := split_on "/"%char template_name in
  if existsb (String.eqb "..") pieces then None
  else Some (filter (fun s => s <> "" /\ s <> ".") pieces).

(** [FileSystemLoader.get_source]: the name resolves when the search path
    followed by its pieces is a regular file. *)
Definition get_source (env : Environment) (fs : FS) (template_name : string)
  : exn + string :=
  match split_template_path template_name with
  | None => inl TemplateNotFound
  | Some pieces =>
      match node_at fs (loader env ++ pieces) with
      | Some (File data _) => inr data
      | _ => inl TemplateNotFound
      end
  end.

(** What the loader can see: the entries at and below its search path. *)
Definition template_tree (env : Environment) (fs : FS) : FS :=
  filter (fun kv => loader env `prefix_of` fst kv) fs.

(** The engine proper: how template text is compiled and how a compiled
    template is rendered.  While rendering, a template may pull in other
    templates, through the loader only: rendering is given the template tree
    and nothing else of the file system. *)
Record Engine := {
  template : Type;
  compile : Environment -> string -> exn + template;
  render : Environment -> FS -> template -> context -> exn + string
}.

Definition lift {A} (r : exn + A) : M A :=
  match r with
  | inl e => raise e
  | inr a => ret a
  end.

Section Build.

Context (J : Engine).

(** [env.get_template(name)] *)
Definition get_template (env : Environment) (template_name : string)
  : M (template J) :=
  fs <- get_files ;;
  source <- lift (get_source env fs template_name) ;;
  lift (compile J env source).

(** [template.render] applied to the keyword arguments [context] *)
Definition template_render (env : Environment) (t : template J) (ctx : context)
  : M string :=
  fs <- get_files ;;
  lift (render J env (template_tree env fs) t ctx).

(** ** [main.py] *)

Definition setup_jinja_env : M Environment :=
  let template_dir := ["src"; "templates"] in
  let env := new_Environment template_dir true true true in
  ret env.

Definition ensure_build_dirs : M path :=
  let build_dir := ["build"] in
  let static_dir := build_dir ++ ["static"] in
  mkdir false true build_dir ;;
  mkdir true true (static_dir ++ ["css"]) ;;
  mkdir true true (static_dir ++ ["js"]) ;;
  mkdir true true (static_dir ++ ["images"]) ;;
  mkdir true true (static_dir ++ ["fonts"]) ;;
  ret build_dir.

Definition src_static : path := ["src"; "static"].
Definition build_static : path := ["build"; "static"].

(** The block under [# Copy JavaScript files]. *)
Definition copy_js_files : M unit :=
  let js_src := src_static ++ ["js"] in
  let js_dest := build_static ++ ["js"] in
  e <- exists_ js_src ;;
  if e then
    js_files <- glob js_src "*.js" ;;
    for_each js_files (fun js_file =>
      copy2 js_file (js_dest ++ [name js_file]) ;;
      print ("Copied " +:+ name js_file))
  else ret tt.

(** The block under [# Copy fonts]. *)
Definition copy_fonts : M unit :=
  let fonts_src := src_static ++ ["fonts"] in
  let fonts_dest := build_static ++ ["fonts"] in
  e <- exists_ fonts_src ;;
  if e then
    font_files <- glob fonts_src "*.woff2" ;;
    for_each font_files (fun font_file =>
      copy2 font_file (fonts_dest ++ [name font_file]) ;;
      print ("Copied " +:+ name font_file))
  else ret tt.

(** The block under [# Copy images if they exist]; [any(...)] of a list of
    paths asks whether the list is non-empty. *)
Definition copy_images : M unit :=
  let img_src := src_static ++ ["images"] in
  let img_dest := build_static ++ ["images"] in
  e <- exists_ img_src ;;
  nonempty <- (if e then entries <- iterdir img_src ;;
                         ret (negb (bool_decide (entries = [])))
               else ret false) ;;
  if nonempty then
    img_files <- iterdir img_src ;;
    for_each img_files (fun img_file =>
      f <- is_file img_file ;;
      if f then
        copy2 img_file (img_dest ++ [name img_file]) ;;
        print ("Copied " +:+ name img_file)
      else ret tt)
  else ret tt.

Definition copy_static_assets : M unit :=
  copy_js_files ;;
  copy_fonts ;;
  copy_images.

Definition render_template (env : Environment) (template_name : string)
    (output_path : path) (ctx : option context) : M unit :=
  let ctx := match ctx with None => ∅ | Some c => c end in
  t <- get_template env template_name ;;
  html <- template_render env t ctx ;;
  write_file output_path html ;;
  print ("Generated " +:+ path_str output_path).

Definition nl : string := String "010"%char EmptyString.

Definition site_context : context :=
  <["title" := "Tap Tempo Perfectionist - Rhythm Training"]>
  (<["description" :=
       "Train your rhythm with PID controller feedback. Develop metronome-like"
       +:+ " consistency."]> ∅).

Definition build_site : M unit :=
  print "Building Tap Tempo Perfectionist..." ;;
  env <- setup_jinja_env ;;
  build_dir <- ensure_build_dirs ;;
  print (nl +:+ "Copying static assets...") ;;
  copy_static_assets ;;
  print (nl +:+ "Generating HTML pages...") ;;
  render_template env "index.html" (build_dir ++ ["index.html"])
    (Some site_context) ;;
  print (nl +:+ "✓ Build complete!") ;;
  print ("Output directory: " +:+ path_str build_dir).

End Build.

(** ** A fragment of Jinja2

    Templates made of literal text and of [{{ key }}] or [{{ key|safe }}]
    interpolations of context keys.  Text that uses anything else of the
    template language (block tags, comments, other expressions) is refused by
    [compile] with [EngineError]: the fragment says nothing about it. *)

Module MiniJinja.

Inductive tnode :=
  | TData (s : string)                   (* literal text *)
  | TPrint (key : string) (safe : bool). (* [{{ key }}], [{{ key|safe }}] *)

Definition CR : ascii := "013"%char.
Definition LF : ascii := "010"%char.

(** The lexer's newline handling: every [\r\n], [\r] and [\n] becomes [\n]. *)
Fixpoint normalize_newlines (s : string) : string :=
  match s with
  | EmptyString => EmptyString
  | String c s' =>
      if Ascii.eqb c CR then
        match s' with
        | String c' s'' =>
            if Ascii.eqb c' LF then String LF (normalize_newlines s'')
            else String LF (normalize_newlines s')
        | EmptyString => String LF EmptyString
        end
      else String c (normalize_newlines s')
  end.

(** One newline at the very end is dropped unless the environment keeps it. *)
Definition strip_final_newline (s : string) : string :=
  if ends_with (String LF EmptyString) s
  then substring 0 (String.length s - 1) s
  else s.

Definition is_space (c : ascii) : bool :=
  Ascii.eqb c " "%char || Ascii.eqb c "009"%char || Ascii.eqb c LF.

Definition is_ident_start (c : ascii) : bool :=
  let n := nat_of_ascii c in
  ((65 <=? n) && (n <=? 90) || (97 <=? n) && (n <=? 122) || (n =? 95))%nat.

Definition is_ident_char (c : ascii) : bool :=
  let n := nat_of_ascii c in
  (is_ident_start c || (48 <=? n) && (n <=? 57))%nat.

Fixpoint all_chars (f : ascii -> bool) (s : string) : bool :=
  match s with
  | EmptyString => true
  | String c s' => f c && all_chars f s'
  end.

(** Names that are not plain context lookups: literals, operators, the
    engine's global functions and its special variables. *)
Definition reserved : list string :=
  ["true"; "false"; "none"; "True"; "False"; "None";
   "and"; "or"; "not"; "in"; "is"; "if"; "else";
   "range"; "dict"; "lipsum"; "cycler"; "joiner"; "namespace";
   "self"; "super"; "loop"; "varargs"; "kwargs"; "caller"].

Definition is_key (s : string) : bool :=
  match s with
  | EmptyString => false
  | String c s' =>
      is_ident_start c && all_chars is_ident_char s'
      && negb (existsb (String.eqb s) reserved)
  end.

Fixpoint lstrip (s : string) : string :=
  match s with
  | String c s' => if is_space c then lstrip s' else s
  | EmptyString => EmptyString
  end.

Fixpoint rstrip (s : string) : string :=
  match s with
  | EmptyString => EmptyString
  | String c s' =>
      match rstrip s' with
      | EmptyString => if is_space c then EmptyString else String c EmptyString
      | r => String c r
      end
  end.

Definition strip (s : string) : string := rstrip (lstrip s).

(** What stands between [{{] and [}}]. *)
Definition parse_print (inner : string) : exn + tnode :=
  match split_on "|"%char inner with
  | [k] =>
      if is_key (strip k) then inr (TPrint (strip k) false)
      else inl (EngineError "expression outside the fragment")
  | [k; f] =>
      if is_key (strip k) && String.eqb (strip f) "safe"
      then inr (TPrint (strip k) true)
      else inl (EngineError "expression outside the fragment")
  | _ => inl (EngineError "expression outside the fragment")
  end.

Inductive lex_state :=
  | InData (acc : string)         (* in literal text *)
  | SeenBrace (acc : string)      (* in literal text, just after a [{] *)
  | InPrint (inner : string)      (* after [{{] *)
  | PrintSeenBrace (inner : string). (* after [{{], just after a [}] *)

Definition snoc (s : string) (c : ascii) : string := s +:+ String c EmptyString.

Definition emit_data (acc : string) (out : list tnode) : list tnode :=
  match acc with
  | EmptyString => out
  | _ => out ++ [TData acc]
  end.

Fixpoint lex (s : string) (st : lex_state) (out : list tnode)
  : exn + list tnode :=
  match s with
  | EmptyString =>
      match st with
      | InData acc => inr (emit_data acc out)
      | SeenBrace acc => inr (emit_data (snoc acc "{") out)
      | InPrint _ | PrintSeenBrace _ => inl TemplateSyntaxError
      end
  | String c s' =>
      match st with
      | InData acc =>
          if Ascii.eqb c "{" then lex s' (SeenBrace acc) out
          else lex s' (InData (snoc acc c)) out
      | SeenBrace acc =>
          if Ascii.eqb c "{" then lex s' (InPrint EmptyString) (emit_data acc out)
          else if Ascii.eqb c "%" || Ascii.eqb c "#"
          then inl (EngineError "tag outside the fragment")
          else lex s' (InData (snoc (snoc acc "{") c)) out
      | InPrint inner =>
          if Ascii.eqb c "}" then lex s' (PrintSeenBrace inner) out
          else lex s' (InPrint (snoc inner c)) out
      | PrintSeenBrace inner =>
          if Ascii.eqb c "}" then
            match parse_print inner with
            | inl e => inl e
            | inr n => lex s' (InData EmptyString) (out ++ [n])
            end
          else inl (EngineError "expression outside the fragment")
      end
  end.

Definition compile_source (env : Environment) (source : string)
  : exn + list tnode :=
  if negb (all_chars (fun c => (nat_of_ascii c <? 128)%nat) source)
  then inl (EngineError "text outside the fragment")
  else
    let source := normalize_newlines source in
    let source := if keep_trailing_newline env then source
                  else strip_final_newline source in
    lex source (InData EmptyString) [].

(** [markupsafe.escape] *)
Fixpoint escape (s : string) : string :=
  match s with
  | EmptyString => EmptyString
  | String c s' =>
      (if Ascii.eqb c "&" then "&amp;"
       else if Ascii.eqb c "<" then "&lt;"
       else if Ascii.eqb c ">" then "&gt;"
       else if Ascii.eqb c "'" then "&#39;"
       else if Ascii.eqb c "034"%char then "&#34;"
       else String c EmptyString) +:+ escape s'
  end.

(** The text one node contributes to the page. *)
Definition render_node (env : Environment) (ctx : context) (n : tnode)
  : exn + string :=
  match n with
  | TData s => inr s
  | TPrint key safe =>
      match ctx !! key with
      | Some v => inr (if autoescape env && negb safe then escape v else v)
      | None =>
          match undefined env with
          | Undefined => inr EmptyString
          | StrictUndefined => inl UndefinedError
          end
      end
  end.

Fixpoint render_nodes (env : Environment) (ctx : context) (t : list tnode)
  : exn + string :=
  match t with
  | [] => inr EmptyString
  | n :: t' =>
      match render_node env ctx n with
      | inl e => inl e
      | inr s =>
          match render_nodes env ctx t' with
          | inl e => inl e
          | inr r => inr (s +:+ r)
          end
      end
  end.

Definition engine : Engine :=
  {| template := list tnode;
     compile := compile_source;
     render := fun env _ t ctx => render_nodes env ctx t |}.

End MiniJinja.

(** * Specification vocabulary *)

(** The world [w] with its files replaced by [fs]. *)
Definition set_fs (w : world) (fs : FS) : world :=
  World fs (stdout w) (clock w) (umask w).

(** A file-system state is well formed when every entry sits in a
    directory. *)
Definition wf (fs : FS) : Prop :=
  map_Forall (fun p _ => node_at fs (parent p) = Some Dir) fs.

Global Instance wf_dec fs : Decision (wf fs).
Proof. unfold wf. apply _. Defined.

(** [fs1] is [fs] with some new directories, all of them at paths in [K]. *)
Definition dir_ext (K : path -> Prop) (fs fs1 : FS) : Prop :=
  forall q, fs1 !! q = fs !! q \/ (fs !! q = None /\ fs1 !! q = Some Dir /\ K q).

(** What any [mkdir] leaves behind, whether it returns or raises: the same
    world with some directories added along the path, well-formedness kept. *)
Definition mkdir_post (p : path) (w w1 : world) : Prop :=
  exists fs1, w1 = set_fs w fs1
    /\ dir_ext (fun q => q `prefix_of` p /\ q <> []) (files w) fs1
    /\ (wf (files w) -> wf fs1).

(** The directories [ensure_build_dirs] is responsible for. *)
Definition build_tree : list path :=
  [ ["build"]; ["build"; "static"];
    ["build"; "static"; "css"]; ["build"; "static"; "js"];
    ["build"; "static"; "images"]; ["build"; "static"; "fonts"] ].

Definition provision_post (w w1 : world) : Prop :=
  exists fs1, w1 = set_fs w fs1
    /\ dir_ext (fun q => q ∈ build_tree) (files w) fs1
    /\ (wf (files w) -> wf fs1).

(** The state [ensure_build_dirs] produces when it returns. *)
Definition provision (fs : FS) : FS :=
  <[["build"; "static"; "fonts"] := Dir]>
  (<[["build"; "static"; "images"] := Dir]>
  (<[["build"; "static"; "js"] := Dir]>
  (<[["build"; "static"; "css"] := Dir]>
  (<[["build"; "static"] := Dir]>
  (<[["build"] := Dir]> fs))))).

(** A state in which a regular file sits where the build root should go. *)
Definition blocked_world : world :=
  World {[ ["build"] := File "" (Stat 420 0) ]} [] 0 18.

(** The empty state: nothing below the directory of the script. *)
Definition empty_world : world := World ∅ [] 0 18.

(** Where [shutil.copy2(src, dst)] writes. *)
Definition dest_of (fs : FS) (src dst : path) : path :=
  if is_dir_fs fs dst then dst ++ [name src] else dst.

(** [shutil.copy2] in one step: the failure it meets first, or the single
    entry it ends up setting. *)
Definition copy2_result (src dst : path) (w : world) : outcome unit :=
  let fs := files w in
  let k := dest_of fs src dst in
  if bool_decide (src = k) && exists_fs fs src then Raise SameFileError w
  else
    match node_at fs src with
    | None => Raise FileNotFoundError w
    | Some Dir => Raise IsADirectoryError w
    | Some (File data st) =>
        match node_at fs k with
        | Some Dir => Raise IsADirectoryError w
        | Some (File _ _) => Ok tt (set_fs w (<[k := File data st]> fs))
        | None =>
            match node_at fs (parent k) with
            | None => Raise FileNotFoundError w
            | Some (File _ _) => Raise NotADirectoryError w
            | Some Dir => Ok tt (set_fs w (<[k := File data st]> fs))
            end
        end
    end.

(** Every difference between [fs] and [fs'] is a regular file allowed by
    [R], put where there was no directory. *)
Definition changes (R : path -> node -> Prop) (fs fs' : FS) : Prop :=
  forall p, fs' !! p = fs !! p
    \/ (fs !! p <> Some Dir
        /\ exists data st, fs' !! p = Some (File data st) /\ R p (File data st)).

(** The copy of [src] that [copy2 src dst] would make is already in place. *)
Definition synced (fs : FS) (src dst : path) : Prop :=
  exists data st,
    node_at fs src = Some (File data st)
    /\ src <> dest_of fs src dst
    /\ fs !! dest_of fs src dst = Some (File data st).

(** Two worlds with the same clock and umask. *)
Definition same_env (w w' : world) : Prop :=
  clock w' = clock w /\ umask w' = umask w.

(** What a copy from directory [sd] into directory [dd] may write, given the
    state [fs0] the sources are read from: a copy of a direct child of [sd],
    under the child's name, either directly in [dd] or, when that name is
    taken by a directory, inside that directory. *)
Definition R_cat (fs0 : FS) (sd dd : path) (p : path) (x : node) : Prop :=
  exists n, (p = dd ++ [n] \/ p = dd ++ [n; n]) /\ fs0 !! (sd ++ [n]) = Some x.

(** [R] allows the copies from [sd] into [dd] and never touches [sd]. *)
Definition R_good (R : path -> node -> Prop) (fs0 : FS) (sd dd : path) : Prop :=
  (forall p x, R_cat fs0 sd dd p x -> R p x)
  /\ (forall n x, ~ R (sd ++ [n]) x).

(** The body of the two extension-filtered loops. *)
Definition copy_body (dd : path) (f : path) : M unit :=
  copy2 f (dd ++ [name f]) ;;
  print ("Copied " +:+ name f).

(** The body of the image loop. *)
Definition copy_body_if_file (dd : path) (f : path) : M unit :=
  b <- is_file f ;;
  if b then copy_body dd f else ret tt.

(** The shape shared by the two extension-filtered blocks of
    [copy_static_assets]. *)
Definition copy_glob (sd dd : path) (pattern : string) : M unit :=
  e <- exists_ sd ;;
  if e then
    fs_ <- glob sd pattern ;;
    for_each fs_ (copy_body dd)
  else ret tt.

(** Source and destination directories that cannot be confused. *)
Definition apart (sd dd : path) : Prop :=
  forall n m, sd ++ [n] <> dd ++ [m] /\ sd ++ [n] <> dd ++ [m; m].

(** The six directories [copy_static_assets] works between. *)
Definition js_src : path := src_static ++ ["js"].
Definition js_dest : path := build_static ++ ["js"].
Definition fonts_src : path := src_static ++ ["fonts"].
Definition fonts_dest : path := build_static ++ ["fonts"].
Definition img_src : path := src_static ++ ["images"].
Definition img_dest : path := build_static ++ ["images"].

(** What [copy_static_assets] may write, given the state it starts from. *)
Definition R_copy (fs0 : FS) (p : path) (x : node) : Prop :=
  R_cat fs0 js_src js_dest p x
  \/ R_cat fs0 fonts_src fonts_dest p x
  \/ R_cat fs0 img_src img_dest p x.

(** [p] lies strictly below directory [d]. *)
Definition under (d p : path) : Prop :=
  exists rest, rest <> [] /\ p = d ++ rest.

(** The asset categories: source directory and destination directory. *)
Definition categories : list (path * path) :=
  [ (js_src, js_dest); (fonts_src, fonts_dest); (img_src, img_dest) ].

(** A source tree whose [js] directory holds a directory named [x.js],
    next to a provisioned, empty build tree. *)
Definition dir_js_world : world :=
  World (list_to_map
    [ (["src"], Dir); (["src"; "static"], Dir);
      (["src"; "static"; "js"], Dir);
      (["src"; "static"; "js"; "x.js"], Dir);
      (["src"; "static"; "images"], Dir);
      (["src"; "static"; "images"; "raw"], Dir);
      (["build"], Dir); (["build"; "static"], Dir);
      (["build"; "static"; "css"], Dir); (["build"; "static"; "js"], Dir);
      (["build"; "static"; "images"], Dir); (["build"; "static"; "fonts"], Dir) ])
    [] 0 18.

(** An extension-filtered category with nothing to copy: the source
    directory is absent, or no entry of it matches the pattern. *)
Definition no_match (fs : FS) (sd : path) (pattern : string) : Prop :=
  fs !! sd = None
  \/ (forall n, fnmatch pattern n = true -> fs !! (sd ++ [n]) = None).

(** The image category with nothing to copy: the source directory is absent,
    or it is a directory none of whose entries is a regular file. *)
Definition no_images (fs : FS) : Prop :=
  fs !! img_src = None
  \/ (fs !! img_src = Some Dir
      /\ forall n, is_file_fs fs (img_src ++ [n]) = false).

(** The template name resolves: its pieces, below the loader's search
    path, name a regular file. *)
Definition resolves (env : Environment) (fs : FS) (template_name : string) : Prop :=
  exists pieces data st,
    split_template_path template_name = Some pieces
    /\ node_at fs (loader env ++ pieces) = Some (File data st).

(** The environment [setup_jinja_env] builds. *)
Definition jinja_env : Environment :=
  new_Environment ["src"; "templates"] true true true.




(** A provisioned tree whose only template interpolates the two keys of the
    site. *)
Definition page_world : world :=
  World (list_to_map
    [ (["src"], Dir); (["src"; "templates"], Dir);
      (["src"; "templates"; "index.html"],
         File ("<h1>{{ title }}</h1><p>{{ description }}</p>" +:+ nl) (Stat 420 5));
      (["build"], Dir); (["build"; "static"], Dir);
      (["build"; "static"; "css"], Dir); (["build"; "static"; "js"], Dir);
      (["build"; "static"; "images"], Dir); (["build"; "static"; "fonts"], Dir) ])
    [] 100 18.

(** The context of the spec's example. *)
Definition td_context : context := <["title" := "T"]> (<["description" := "D"]> ∅).

(** A source tree with [a.js], [b.js] and a text file in [src/static/js],
    nothing built yet. *)
Definition two_js_world : world :=
  World (list_to_map
    [ (["src"], Dir); (["src"; "static"], Dir);
      (["src"; "static"; "js"], Dir);
      (["src"; "static"; "js"; "a.js"], File "let a = 1;" (Stat 420 7));
      (["src"; "static"; "js"; "b.js"], File "let b = 2;" (Stat 384 8));
      (["src"; "static"; "js"; "notes.txt"], File "todo" (Stat 420 9)) ])
    [] 100 18.


(** The page the build writes. *)
Definition index_path : path := ["build"; "index.html"].

(** [w'] has the files, clock and umask of [w]. *)
Definition quiet (w w' : world) : Prop :=
  files w' = files w /\ same_env w w'.

(** Nothing at or below [src] differs. *)
Definition same_src (fs fs' : FS) : Prop :=
  forall rest, fs' !! ("src" :: rest) = fs !! ("src" :: rest).

(** The world after [print(line)]. *)
Definition printed (w : world) (line : string) : world :=
  World (files w) (stdout w ++ [line]) (clock w) (umask w).

(** A source tree with a template, two scripts, a font, an image and a
    directory among the images; nothing built yet. *)
Definition site_world : world :=
  World (list_to_map
    [ (["src"], Dir); (["src"; "templates"], Dir);
      (["src"; "templates"; "index.html"],
         File ("<h1>{{ title }}</h1><p>{{ description }}</p>" +:+ nl) (Stat 420 5));
      (["src"; "static"], Dir); (["src"; "static"; "js"], Dir);
      (["src"; "static"; "js"; "a.js"], File "let a = 1;" (Stat 420 7));
      (["src"; "static"; "js"; "b.js"], File "let b = 2;" (Stat 384 8));
      (["src"; "static"; "js"; "notes.txt"], File "todo" (Stat 420 9));
      (["src"; "static"; "fonts"], Dir);
      (["src"; "static"; "fonts"; "f.woff2"], File "wOF2" (Stat 420 3));
      (["src"; "static"; "images"], Dir);
      (["src"; "static"; "images"; "raw"], Dir);
      (["src"; "static"; "images"; "logo.png"], File "PNG" (Stat 420 4)) ])
    [] 100 18.

(** [fs'] differs from [fs] at paths in [A] only. *)
Definition within (A : path -> Prop) (fs fs' : FS) : Prop :=
  forall p, fs' !! p = fs !! p \/ A p.

(** The paths the build may write: the six directories of the build tree,
    anything below the three asset destinations, and the page. *)
Definition build_output (p : path) : Prop :=
  p ∈ build_tree \/ under js_dest p \/ under fonts_dest p \/ under img_dest p
  \/ p = index_path.

(** The site of [site_world] after provisioning. *)
Definition site_provisioned : world :=
  set_fs site_world (provision (files site_world)).

(** The line [copy_static_assets] prints for a copied file. *)
Definition copied_line (n : string) : string := "Copied " +:+ n.

(** The names an extension-filtered block selects in [sd]. *)
Definition selected (fs : FS) (sd : path) (pattern : string) : list string :=
  if is_dir_fs fs sd
  then filter (fun n => fnmatch pattern n = true) (listdir fs sd)
  else [].

(** The names the image block copies: the regular files of [src/static/images]. *)
Definition image_files (fs : FS) : list string :=
  if is_dir_fs fs img_src
  then filter (fun n => is_file_fs fs (img_src ++ [n]) = true) (listdir fs img_src)
  else [].

(** The entry [n] of [sd], a regular file in [fs], is in [fs1] unchanged and
    copied, contents and metadata, to where [copy2] puts it from [fs]:
    [dd/n], or [dd/n/n] when [dd/n] is a directory. *)
Definition delivered (fs fs1 : FS) (sd dd : path) (n : string) : Prop :=
  exists data st,
    fs !! (sd ++ [n]) = Some (File data st)
    /\ fs1 !! (sd ++ [n]) = Some (File data st)
    /\ fs1 !! dest_of fs (sd ++ [n]) (dd ++ [n]) = Some (File data st).

(** The line [build_site] prints once everything is built. *)
Definition complete_line : string := nl +:+ "✓ Build complete!".

(** Up to [w'], the console has grown, since [w], by lines that all
    satisfy [P]. *)
Definition logs (P : string -> Prop) (w w' : world) : Prop :=
  exists out, stdout w' = stdout w ++ out /\ Forall P out.


(** * Properties *)

(** ** Worlds and the monad *)

Lemma set_fs_same w : set_fs w (files w) = w.
Proof. by destruct w. Qed.

Lemma node_at_snoc fs (p : path) (x : string) : node_at fs (p ++ [x]) = fs !! (p ++ [x]).
Proof. by destruct p. Qed.

Lemma parent_snoc (p : path) (x : string) : parent (p ++ [x]) = p.
Proof. apply removelast_last. Qed.

Lemma name_snoc (p : path) (x : string) : name (p ++ [x]) = x.
Proof. apply last_last. Qed.

(** Unfolds the plumbing of the monad. *)
Ltac monad_simpl :=
  unfold is_dir, is_file, exists_, set_files, get_files, lift, raise, ret, bind;
  cbn beta iota.

(** ** Directory creation *)

(** A path that is free or a directory, below a directory: [mkdir] with
    [exist_ok] makes it a directory and changes nothing else. *)
Lemma mkdir_below_dir parents p w :
  p <> [] ->
  node_at (files w) (parent p) = Some Dir ->
  is_file_fs (files w) p = false ->
  mkdir parents true p w = Ok tt (set_fs w (<[p := Dir]> (files w))).
Proof.
  intros Hne Hpar Hp.
  unfold mkdir, try_except, os_mkdir, bind, get_files, is_dir, exists_fs, is_dir_fs, raise, ret, set_files, set_fs.
  unfold is_file_fs in Hp. rewrite Hpar.
  destruct (node_at (files w) p) as [[|]|] eqn:E; try done; simpl.
  rewrite E. destruct p; [done|]. simpl in E. rewrite insert_id by done.
  by destruct w.
Qed.

Lemma dir_ext_refl K fs : dir_ext K fs fs.
Proof. intros q. by left. Qed.

Lemma dir_ext_trans K fs fs1 fs2 :
  dir_ext K fs fs1 -> dir_ext K fs1 fs2 -> dir_ext K fs fs2.
Proof.
  intros H1 H2 q. destruct (H2 q) as [E2|(N2 & D2 & K2)].
  - rewrite E2. apply H1.
  - destruct (H1 q) as [E1|(N1 & D1 & K1)]; [|congruence].
    right. rewrite <- E1. done.
Qed.

Lemma dir_ext_mono (K K' : path -> Prop) fs fs1 :
  (forall q, K q -> K' q) -> dir_ext K fs fs1 -> dir_ext K' fs fs1.
Proof. intros HK H q. destruct (H q) as [?|(?&?&?)]; [by left|right; auto]. Qed.

Lemma dir_ext_insert (K : path -> Prop) fs p :
  fs !! p = None -> K p -> dir_ext K fs (<[p := Dir]> fs).
Proof.
  intros Hp HK q. destruct (decide (p = q)) as [<-|Hne].
  - right. by rewrite lookup_insert_eq.
  - left. by rewrite lookup_insert_ne.
Qed.

Lemma dir_ext_lookup K fs fs1 q x :
  dir_ext K fs fs1 -> fs !! q = Some x -> fs1 !! q = Some x.
Proof. intros H Hq. destruct (H q) as [->|(?&?&?)]; congruence. Qed.

Lemma wf_insert_dir fs p :
  wf fs -> node_at fs (parent p) = Some Dir -> fs !! p = None ->
  wf (<[p := Dir]> fs).
Proof.
  intros Hwf Hpar Hp q x Hq. cbn beta.
  assert (Hstep : forall r, node_at fs r = Some Dir -> node_at (<[p:=Dir]> fs) r = Some Dir).
  { intros r Hr. destruct r as [|a r]; [done|]. simpl in *.
    destruct (decide (p = a :: r)) as [->|]; [by rewrite lookup_insert_eq|].
    by rewrite lookup_insert_ne. }
  apply Hstep. destruct (decide (p = q)) as [<-|Hne]; [done|].
  rewrite lookup_insert_ne in Hq by done. by apply (Hwf q x).
Qed.

Lemma os_mkdir_inv p w u w1 :
  os_mkdir p w = Ok u w1 ->
  node_at (files w) (parent p) = Some Dir /\ node_at (files w) p = None
  /\ w1 = set_fs w (<[p := Dir]> (files w)).
Proof.
  unfold os_mkdir, bind, get_files, raise, set_files, exists_fs, set_fs.
  destruct (node_at (files w) (parent p)) as [[|]|]; try done.
  destruct (node_at (files w) p); try done. intros [= <-]. done.
Qed.

Lemma os_mkdir_raise p w e w1 : os_mkdir p w = Raise e w1 -> w1 = w.
Proof.
  unfold os_mkdir, bind, get_files, raise, set_files, exists_fs.
  destruct (node_at (files w) (parent p)) as [[|]|]; try (by intros [= _ <-]).
  destruct (node_at (files w) p); try done. by intros [= _ <-].
Qed.

Lemma mkdir_post_refl p w : mkdir_post p w w.
Proof.
  exists (files w). split; [by rewrite set_fs_same|]. split; [apply dir_ext_refl|done].
Qed.

Lemma mkdir_post_trans p p' w w1 w2 :
  p `prefix_of` p' -> mkdir_post p w w1 -> mkdir_post p' w1 w2 -> mkdir_post p' w w2.
Proof.
  intros Hpp (fs1 & -> & E1 & W1) (fs2 & -> & E2 & W2). simpl in *.
  exists fs2. split; [done|]. split; [|auto].
  eapply dir_ext_trans; [|exact E2].
  eapply dir_ext_mono; [|exact E1]. intros q [Hq ?]; cbn in *.
  split; [by etrans|done].
Qed.

Lemma os_mkdir_post p w u w1 : os_mkdir p w = Ok u w1 -> mkdir_post p w w1.
Proof.
  intros (Hpar & Hp & ->)%os_mkdir_inv.
  assert (files w !! p = None) by (by destruct p).
  exists (<[p:=Dir]> (files w)). split; [done|]. split.
  - apply dir_ext_insert; [done|]. split; [done|]. by intros ->.
  - intros Hwf. by apply wf_insert_dir.
Qed.

Lemma mkdir_single_post exist_ok p w :
  mkdir_post p w (world_of (mkdir_single exist_ok p w))
  /\ (forall u w1, mkdir_single exist_ok p w = Ok u w1 ->
        node_at (files w1) p = Some Dir).
Proof.
  unfold mkdir_single, try_except.
  destruct (os_mkdir p w) as [u w1|e w1] eqn:E.
  - split; [by eapply os_mkdir_post|]. intros ? ? [= _ <-].
    apply os_mkdir_inv in E as (_ & _ & ->). simpl.
    destruct p; [done|]. simpl. by rewrite lookup_insert_eq.
  - apply os_mkdir_raise in E as ->.
    unfold is_dir, is_dir_fs. monad_simpl.
    destruct (node_at (files w) p) as [[|]|] eqn:Hp;
      destruct exist_ok; simpl; (split; [apply mkdir_post_refl|]); try done.
    all: by intros ? ? [= _ <-].
Qed.

Lemma mkdir_parents_post rp : forall w,
  mkdir_post (rev rp) w (world_of (mkdir_parents rp w))
  /\ (forall u w1, mkdir_parents rp w = Ok u w1 ->
        node_at (files w1) (rev rp) = Some Dir).
Proof.
  induction rp as [|x rp IH]; intros w.
  { apply (mkdir_single_post true [] w). }
  assert (Hpre : rev rp `prefix_of` rev (x :: rp)) by (by eexists).
  cbn [mkdir_parents]. unfold try_except.
  destruct (os_mkdir (rev (x :: rp)) w) as [u w1|e w1] eqn:E.
  - split; [by eapply os_mkdir_post|]. intros ? ? [= _ <-].
    apply os_mkdir_inv in E as (_ & _ & ->). simpl.
    rewrite node_at_snoc. by rewrite lookup_insert_eq.
  - apply os_mkdir_raise in E as ->.
    assert (Hdflt :
      let o := (d <- is_dir (rev (x :: rp)) ;;
                if negb d then raise e else ret tt) w in
      mkdir_post (rev (x :: rp)) w (world_of o)
      /\ (forall u w1, o = Ok u w1 -> node_at (files w1) (rev (x :: rp)) = Some Dir)).
    { unfold is_dir_fs. monad_simpl. unfold is_dir_fs.
      destruct (node_at (files w) (rev (x :: rp))) as [[|]|] eqn:Hp; simpl;
        (split; [apply mkdir_post_refl|]); try done.
      by intros ? ? [= _ <-]. }
    destruct e; try exact Hdflt. clear Hdflt.
    unfold bind. destruct (IH w) as [Hpost Hok].
    destruct (mkdir_parents rp w) as [u w1|e w1] eqn:E1; simpl in Hpost.
    + destruct (mkdir_single_post true (rev (x :: rp)) w1) as [Hpost2 Hok2].
      cbn beta. split; [|exact Hok2].
      eapply mkdir_post_trans; [exact Hpre|exact Hpost|exact Hpost2].
    + split; [|done]. simpl.
      eapply mkdir_post_trans; [exact Hpre|exact Hpost|apply mkdir_post_refl].
Qed.

Lemma mkdir_gen_post parents exist_ok p w :
  mkdir_post p w (world_of (mkdir parents exist_ok p w))
  /\ (forall u w1, mkdir parents exist_ok p w = Ok u w1 ->
        node_at (files w1) p = Some Dir).
Proof.
  unfold mkdir, try_except.
  destruct (os_mkdir p w) as [u w1|e w1] eqn:E.
  - split; [by eapply os_mkdir_post|]. intros ? ? [= _ <-].
    apply os_mkdir_inv in E as (_ & Hp & ->). simpl.
    destruct p; [done|]. simpl. by rewrite lookup_insert_eq.
  - apply os_mkdir_raise in E as ->.
    assert (Hdflt :
      let o := (d <- is_dir p ;;
                if negb exist_ok || negb d then raise e else ret tt) w in
      mkdir_post p w (world_of o)
      /\ (forall u w1, o = Ok u w1 -> node_at (files w1) p = Some Dir)).
    { monad_simpl. unfold is_dir_fs.
      destruct (node_at (files w) p) as [[|]|] eqn:Hp;
        destruct exist_ok; simpl; (split; [apply mkdir_post_refl|]); try done.
      all: by intros ? ? [= _ <-]. }
    destruct e; try exact Hdflt. clear Hdflt.
    destruct (negb parents || bool_decide (parent p = p));
      [split; [apply mkdir_post_refl|done]|].
    assert (Hpre : parent p `prefix_of` p).
    { unfold parent. destruct (decide (p = [])) as [->|Hne]; [done|].
      exists [List.last p ""]. by apply app_removelast_last. }
    unfold bind.
    destruct (mkdir_parents_post (rev (parent p)) w) as [Hpost Hok].
    rewrite rev_involutive in Hpost.
    destruct (mkdir_parents (rev (parent p)) w) as [u w1|e w1] eqn:E1; simpl in Hpost.
    + destruct (mkdir_single_post exist_ok p w1) as [Hpost2 Hok2].
      cbn beta. split; [|exact Hok2].
      eapply mkdir_post_trans; [exact Hpre|exact Hpost|exact Hpost2].
    + split; [|done]. simpl.
      eapply mkdir_post_trans; [exact Hpre|exact Hpost|apply mkdir_post_refl].
Qed.

Lemma bind_ok_inv {A B} (c : M A) (k : A -> M B) w b w2 :
  bind c k w = Ok b w2 -> exists a w1, c w = Ok a w1 /\ k a w1 = Ok b w2.
Proof. unfold bind. destruct (c w) as [a w1|]; [eauto|done]. Qed.

Lemma bind_ok {A B} (c : M A) (k : A -> M B) w a w1 :
  c w = Ok a w1 -> bind c k w = k a w1.
Proof. unfold bind. by intros ->. Qed.

Lemma bind_raise {A B} (c : M A) (k : A -> M B) w e w1 :
  c w = Raise e w1 -> bind c k w = Raise e w1.
Proof. unfold bind. by intros ->. Qed.

(** Membership in a list that is written out. *)
Ltac in_list :=
  repeat first [apply list_elem_of_here | apply list_elem_of_further].

Lemma provision_post_trans w w1 w2 :
  provision_post w w1 -> provision_post w1 w2 -> provision_post w w2.
Proof.
  intros (fs1 & -> & E1 & W1) (fs2 & -> & E2 & W2). simpl in *.
  exists fs2. split; [done|]. split; [by eapply dir_ext_trans|auto].
Qed.

Lemma mkdir_provision_post p w w1 :
  p ∈ build_tree -> mkdir_post p w w1 -> provision_post w w1.
Proof.
  intros Hp (fs1 & -> & E1 & W1). exists fs1. split; [done|]. split; [|done].
  eapply dir_ext_mono; [|exact E1]. cbn beta. intros q [[k Hk] Hq].
  unfold build_tree in *.
  repeat (apply elem_of_cons in Hp as [->|Hp]); try (by apply elem_of_nil in Hp);
    destruct q as [|? [|? [|? [|? ?]]]]; simplify_eq/=; in_list.
Qed.

Lemma ensure_build_dirs_inv w p w1 :
  ensure_build_dirs w = Ok p w1 ->
  p = ["build"] /\ provision_post w w1
  /\ (forall q, q ∈ build_tree -> q <> ["build"; "static"] ->
        files w1 !! q = Some Dir).
Proof.
  unfold ensure_build_dirs. cbn zeta. simpl app.
  intros (u1 & wa & H1 & H)%bind_ok_inv.
  apply bind_ok_inv in H as (u2 & wb & H2 & H).
  apply bind_ok_inv in H as (u3 & wc & H3 & H).
  apply bind_ok_inv in H as (u4 & wd & H4 & H).
  apply bind_ok_inv in H as (u5 & we & H5 & H).
  injection H as Hp Hw. subst p we.
  destruct (mkdir_gen_post false true ["build"] w) as [P1 D1].
  destruct (mkdir_gen_post true true ["build"; "static"; "css"] wa) as [P2 D2].
  destruct (mkdir_gen_post true true ["build"; "static"; "js"] wb) as [P3 D3].
  destruct (mkdir_gen_post true true ["build"; "static"; "images"] wc) as [P4 D4].
  destruct (mkdir_gen_post true true ["build"; "static"; "fonts"] wd) as [P5 D5].
  rewrite H1 in P1. rewrite H2 in P2. rewrite H3 in P3. rewrite H4 in P4.
  rewrite H5 in P5. simpl in P1, P2, P3, P4, P5.
  apply mkdir_provision_post in P1; [|unfold build_tree; in_list].
  apply mkdir_provision_post in P2; [|unfold build_tree; in_list].
  apply mkdir_provision_post in P3; [|unfold build_tree; in_list].
  apply mkdir_provision_post in P4; [|unfold build_tree; in_list].
  apply mkdir_provision_post in P5; [|unfold build_tree; in_list].
  specialize (D1 _ _ H1). specialize (D2 _ _ H2). specialize (D3 _ _ H3).
  specialize (D4 _ _ H4). specialize (D5 _ _ H5).
  assert (P25 : provision_post wa w1) by eauto using provision_post_trans.
  assert (P35 : provision_post wb w1) by eauto using provision_post_trans.
  assert (P45 : provision_post wc w1) by eauto using provision_post_trans.
  split; [done|]. split; [eauto using provision_post_trans|].
  assert (Hkeep : forall wx q, provision_post wx w1 ->
            node_at (files wx) q = Some Dir -> q <> [] -> files w1 !! q = Some Dir).
  { intros wx q (fs1 & -> & E & _) Hq Hne. simpl.
    destruct q; [done|]. by eapply dir_ext_lookup. }
  intros q Hq Hns. unfold build_tree in Hq.
  repeat (apply elem_of_cons in Hq as [->|Hq]); try done.
  - by apply (Hkeep wa).
  - by apply (Hkeep wb).
  - by apply (Hkeep wc).
  - by apply (Hkeep wd).
  - by apply elem_of_nil in Hq.
Qed.

(** On a well-formed state, a run that returns leaves the whole build tree
    in place. *)
Lemma ensure_build_dirs_dirs w p w1 :
  wf (files w) -> ensure_build_dirs w = Ok p w1 ->
  wf (files w1) /\ forall q, q ∈ build_tree -> files w1 !! q = Some Dir.
Proof.
  intros Hwf (-> & (fs1 & -> & E & W) & Hd)%ensure_build_dirs_inv. simpl in *.
  split; [auto|]. intros q Hq.
  destruct (decide (q = ["build"; "static"])) as [->|Hne]; [|auto].
  assert (Hcss : fs1 !! ["build"; "static"; "css"] = Some Dir)
    by (apply Hd; [unfold build_tree; in_list|done]).
  apply (W Hwf) in Hcss. done.
Qed.

(** [mkdir(parents=True, exist_ok=True)] when only the parent is missing. *)
Lemma mkdir_parent_missing d x y w :
  node_at (files w) d = Some Dir ->
  files w !! (d ++ [x]) = None ->
  is_file_fs (files w) (d ++ [x; y]) = false ->
  mkdir true true (d ++ [x; y]) w
  = Ok tt (set_fs w (<[d ++ [x; y] := Dir]> (<[d ++ [x] := Dir]> (files w)))).
Proof.
  intros Hd Hx Hy.
  assert (Hp : parent (d ++ [x; y]) = d ++ [x]).
  { replace (d ++ [x; y]) with ((d ++ [x]) ++ [y]) by (by rewrite <- app_assoc).
    apply parent_snoc. }
  assert (Hne : d ++ [x] <> d ++ [x; y]).
  { intros E%(f_equal length). rewrite !length_app in E. simpl in E. lia. }
  unfold mkdir, try_except.
  assert (E1 : os_mkdir (d ++ [x; y]) w = Raise FileNotFoundError w).
  { unfold os_mkdir. monad_simpl. by rewrite Hp, node_at_snoc, Hx. }
  rewrite E1. rewrite Hp. rewrite bool_decide_eq_false_2 by done. simpl.
  rewrite rev_unit. cbn [mkdir_parents]. unfold try_except.
  assert (E2 : os_mkdir (rev (x :: rev d)) w
               = Ok tt (set_fs w (<[d ++ [x] := Dir]> (files w)))).
  { simpl rev. rewrite rev_involutive. unfold os_mkdir, exists_fs. monad_simpl.
    by rewrite parent_snoc, Hd, node_at_snoc, Hx. }
  unfold bind at 1. rewrite E2.
  unfold mkdir_single, try_except, os_mkdir, exists_fs, is_dir_fs. monad_simpl.
  cbn [files set_fs]. rewrite Hp, node_at_snoc, lookup_insert_eq.
  unfold is_file_fs in Hy.
  assert (Hn : node_at (<[d ++ [x] := Dir]> (files w)) (d ++ [x; y])
               = node_at (files w) (d ++ [x; y])).
  { destruct d; simpl; by rewrite lookup_insert_ne. }
  rewrite Hn.
  destruct (node_at (files w) (d ++ [x; y])) as [[|]|] eqn:E; try done.
  unfold is_dir_fs. cbn [files set_fs]. rewrite Hn. simpl.
  unfold set_fs. simpl. f_equal. f_equal.
  symmetry. apply insert_id. rewrite <- Hn. by destruct d.
Qed.

Lemma ensure_build_dirs_run w :
  (forall q, q ∈ build_tree -> is_file_fs (files w) q = false) ->
  ensure_build_dirs w = Ok ["build"] (set_fs w (provision (files w))).
Proof.
  intros Hnf. unfold ensure_build_dirs. cbn zeta. simpl app.
  rewrite (bind_ok _ _ _ _ _
    (mkdir_below_dir false ["build"] w ltac:(done) ltac:(done)
       (Hnf _ ltac:(unfold build_tree; in_list)))).
  set (fs1 := <[["build"] := Dir]> (files w)).
  assert (Hfile : forall fs' q, q ∈ build_tree ->
            (fs' !! q = files w !! q \/ fs' !! q = Some Dir) ->
            is_file_fs fs' q = false).
  { intros fs' q Hq Hl. specialize (Hnf q Hq). unfold is_file_fs in *.
    destruct q; [done|]. simpl in *. destruct Hl as [->| ->]; done. }
  assert (E2 : mkdir true true ["build"; "static"; "css"] (set_fs w fs1)
    = Ok tt (set_fs w (<[["build"; "static"; "css"] := Dir]>
                       (<[["build"; "static"] := Dir]> fs1)))).
  { destruct (files w !! ["build"; "static"]) as [[|]|] eqn:Hs.
    - specialize (Hnf ["build"; "static"] ltac:(unfold build_tree; in_list)).
      unfold is_file_fs in Hnf. simpl in Hnf. by rewrite Hs in Hnf.
    - rewrite mkdir_below_dir; try done.
      + simpl. rewrite (insert_id fs1 ["build"; "static"]); [done|].
        unfold fs1. by rewrite lookup_insert_ne.
      + simpl. unfold fs1. by rewrite lookup_insert_ne.
      + apply Hfile; [unfold build_tree; in_list|]. left. simpl. unfold fs1.
        by rewrite lookup_insert_ne.
    - apply (mkdir_parent_missing ["build"] "static" "css" (set_fs w fs1)).
      + simpl. unfold fs1. by rewrite lookup_insert_eq.
      + simpl. unfold fs1. by rewrite lookup_insert_ne.
      + apply Hfile; [unfold build_tree; in_list|]. left. simpl. unfold fs1.
        by rewrite lookup_insert_ne. }
  rewrite (bind_ok _ _ _ _ _ E2). clear E2.
  set (fs2 := <[["build"; "static"; "css"] := Dir]> _).
  rewrite (bind_ok _ _ (set_fs w fs2) tt
             (set_fs w (<[["build"; "static"; "js"] := Dir]> fs2))).
  2:{ rewrite mkdir_below_dir; try done.
      - simpl. unfold fs2. rewrite lookup_insert_ne by done.
        by rewrite lookup_insert_eq.
      - apply Hfile; [unfold build_tree; in_list|]. left. simpl. unfold fs2, fs1.
        by rewrite !lookup_insert_ne. }
  set (fs3 := <[["build"; "static"; "js"] := Dir]> _).
  rewrite (bind_ok _ _ (set_fs w fs3) tt
             (set_fs w (<[["build"; "static"; "images"] := Dir]> fs3))).
  2:{ rewrite mkdir_below_dir; try done.
      - simpl. unfold fs3, fs2. rewrite !lookup_insert_ne by done.
        by rewrite lookup_insert_eq.
      - apply Hfile; [unfold build_tree; in_list|]. left. simpl.
        unfold fs3, fs2, fs1. by rewrite !lookup_insert_ne. }
  set (fs4 := <[["build"; "static"; "images"] := Dir]> _).
  rewrite (bind_ok _ _ (set_fs w fs4) tt
             (set_fs w (<[["build"; "static"; "fonts"] := Dir]> fs4))).
  2:{ rewrite mkdir_below_dir; try done.
      - simpl. unfold fs4, fs3, fs2. rewrite !lookup_insert_ne by done.
        by rewrite lookup_insert_eq.
      - apply Hfile; [unfold build_tree; in_list|]. left. simpl.
        unfold fs4, fs3, fs2, fs1. by rewrite !lookup_insert_ne. }
  done.
Qed.

Lemma lookup_provision fs q :
  provision fs !! q = if bool_decide (q ∈ build_tree) then Some Dir else fs !! q.
Proof.
  unfold provision.
  destruct (bool_decide (q ∈ build_tree)) eqn:Hq.
  - apply bool_decide_eq_true in Hq. unfold build_tree in Hq.
    repeat (apply elem_of_cons in Hq as [->|Hq]);
      try (by apply elem_of_nil in Hq);
      repeat (first [by rewrite lookup_insert_eq | rewrite lookup_insert_ne by done]).
  - apply bool_decide_eq_false in Hq.
    rewrite !lookup_insert_ne; [done|..]; intros <-; apply Hq;
      unfold build_tree; in_list.
Qed.

Lemma provision_idemp fs : provision (provision fs) = provision fs.
Proof.
  apply map_eq. intros q. rewrite !lookup_provision.
  by destruct (bool_decide (q ∈ build_tree)).
Qed.

(** C2 (as amended): on every state in which none of [build],
    [build/static] and the four sub-directories is occupied by a regular
    file, [ensure_build_dirs] returns the build root and leaves all six as
    directories; a second run on the result returns again, in the very same
    state; every entry that existed before is still there unchanged, and
    nothing outside the six paths is touched. *)
Theorem ensure_build_dirs_idempotent w :
  (forall q, q ∈ build_tree -> is_file_fs (files w) q = false) ->
  exists w1,
    ensure_build_dirs w = Ok ["build"] w1
    /\ (forall q, q ∈ build_tree -> files w1 !! q = Some Dir)
    /\ ensure_build_dirs w1 = Ok ["build"] w1
    /\ (forall q x, files w !! q = Some x -> files w1 !! q = Some x)
    /\ (forall q, q ∉ build_tree -> files w1 !! q = files w !! q).
Proof.
  intros Hnf. exists (set_fs w (provision (files w))).
  split; [by apply ensure_build_dirs_run|].
  assert (Hd : forall q, q ∈ build_tree -> provision (files w) !! q = Some Dir).
  { intros q Hq. rewrite lookup_provision. by rewrite bool_decide_eq_true_2. }
  split; [exact Hd|]. split; [|split].
  - rewrite ensure_build_dirs_run.
    + unfold set_fs. simpl. by rewrite provision_idemp.
    + intros q Hq. unfold is_file_fs. simpl. destruct q; [done|].
      simpl. by rewrite (Hd _ Hq).
  - intros q x Hq. simpl. rewrite lookup_provision.
    destruct (bool_decide (q ∈ build_tree)) eqn:Hb; [|done].
    apply bool_decide_eq_true in Hb. specialize (Hnf q Hb).
    unfold is_file_fs in Hnf. destruct q.
    { unfold build_tree in Hb.
      repeat (apply elem_of_cons in Hb as [[=]|Hb]). by apply elem_of_nil in Hb. }
    simpl in Hnf. rewrite Hq in Hnf. by destruct x.
  - intros q Hq. simpl. rewrite lookup_provision.
    by rewrite bool_decide_eq_false_2.
Qed.

Lemma ensure_build_dirs_idempotent_witness :
  exists w1,
    ensure_build_dirs empty_world = Ok ["build"] w1
    /\ (forall q, q ∈ build_tree -> files w1 !! q = Some Dir)
    /\ ensure_build_dirs w1 = Ok ["build"] w1
    /\ (forall q x, files empty_world !! q = Some x -> files w1 !! q = Some x)
    /\ (forall q, q ∉ build_tree -> files w1 !! q = files empty_world !! q).
Proof.
  apply (ensure_build_dirs_idempotent empty_world).
  intros q _. unfold is_file_fs, empty_world. simpl.
  destruct q; [reflexivity|]. simpl. rewrite lookup_empty. reflexivity.
Defined.

(** C2 (as stated) fails: with a regular file named [build] in the way, the
    first run raises [FileExistsError] and creates nothing, so it is not on
    every state that a first run creates the tree. *)
Lemma ensure_build_dirs_blocked :
  wf (files blocked_world)
  /\ ensure_build_dirs blocked_world = Raise FileExistsError blocked_world
  /\ ~ (forall w, exists w1, ensure_build_dirs w = Ok ["build"] w1).
Proof.
  assert (E : ensure_build_dirs blocked_world = Raise FileExistsError blocked_world)
    by (vm_compute; reflexivity).
  split; [|split; [exact E|]].
  - unfold wf, blocked_world. simpl. apply map_Forall_singleton. reflexivity.
  - intros H. destruct (H blocked_world) as [w1 Hw1]. rewrite E in Hw1. discriminate.
Qed.

(** ** Copying one file *)

Lemma dest_of_nonempty fs src dst : dest_of fs src dst <> [].
Proof.
  unfold dest_of. destruct dst as [|a dst]; [done|].
  destruct (is_dir_fs fs (a :: dst)); done.
Qed.

Lemma copy2_eq src dst w : copy2 src dst w = copy2_result src dst w.
Proof.
  unfold copy2, copy2_result. monad_simpl. fold (dest_of (files w) src dst).
  pose proof (dest_of_nonempty (files w) src dst) as Hk.
  set (k := dest_of (files w) src dst) in *. clearbody k.
  unfold copyfile, read_file, write_file. monad_simpl.
  destruct (bool_decide (src = k) && exists_fs (files w) src) eqn:Hsame; [done|].
  destruct (node_at (files w) src) as [[data st|]|] eqn:Hs; try done.
  assert (Hne : src <> k).
  { intros ->. unfold exists_fs in Hsame. rewrite Hs in Hsame.
    by rewrite bool_decide_eq_true_2 in Hsame. }
  assert (Hs' : forall x, node_at (<[k := x]> (files w)) src = Some (File data st)).
  { intros x. destruct src; [done|]. simpl in *. by rewrite lookup_insert_ne. }
  assert (Hk' : forall x, node_at (<[k := x]> (files w)) k = Some x).
  { intros x. destruct k; [done|]. simpl. by rewrite lookup_insert_eq. }
  cbn [fst].
  destruct (node_at (files w) k) as [[data' st'|]|] eqn:Hd; try done.
  - unfold copystat. monad_simpl. cbn [files]. rewrite Hs', Hk'.
    unfold set_fs. cbn. by rewrite insert_insert_eq.
  - destruct (node_at (files w) (parent k)) as [[|]|] eqn:Hp; try done.
    unfold copystat. monad_simpl. cbn [files]. rewrite Hs', Hk'.
    unfold set_fs. cbn. by rewrite insert_insert_eq.
Qed.

Lemma copy2_raise src dst w e w1 : copy2 src dst w = Raise e w1 -> w1 = w.
Proof.
  rewrite copy2_eq. unfold copy2_result. cbn zeta.
  repeat case_match; congruence.
Qed.

Lemma copy2_ok_inv src dst w u w1 :
  copy2 src dst w = Ok u w1 ->
  exists data st,
    node_at (files w) src = Some (File data st)
    /\ src <> dest_of (files w) src dst
    /\ files w !! dest_of (files w) src dst <> Some Dir
    /\ w1 = set_fs w (<[dest_of (files w) src dst := File data st]> (files w)).
Proof.
  rewrite copy2_eq. unfold copy2_result. cbn zeta.
  pose proof (dest_of_nonempty (files w) src dst) as Hk.
  set (k := dest_of (files w) src dst) in *. clearbody k.
  destruct (bool_decide (src = k) && exists_fs (files w) src) eqn:Hsame; [done|].
  destruct (node_at (files w) src) as [[data st|]|] eqn:Hs; try done.
  assert (Hne : src <> k).
  { intros ->. unfold exists_fs in Hsame. rewrite Hs in Hsame.
    by rewrite bool_decide_eq_true_2 in Hsame. }
  assert (Hkk : node_at (files w) k = files w !! k) by (by destruct k).
  rewrite Hkk.
  destruct (files w !! k) as [[data' st'|]|] eqn:Hd; try done.
  - intros [= <- <-]. exists data, st. done.
  - destruct (node_at (files w) (parent k)) as [[|]|]; try done.
    intros [= <- <-]. exists data, st. done.
Qed.


(** After a copy the copy is in place. *)
Lemma copy2_establishes src dst w u w1 :
  copy2 src dst w = Ok u w1 -> synced (files w1) src dst.
Proof.
  intros (data & st & Hs & Hne & Hd & ->)%copy2_ok_inv. cbn [files set_fs].
  pose proof (dest_of_nonempty (files w) src dst) as Hk.
  assert (Hdir : is_dir_fs (<[dest_of (files w) src dst := File data st]> (files w)) dst
                 = is_dir_fs (files w) dst).
  { unfold is_dir_fs. destruct dst as [|a dst]; [done|]. simpl.
    destruct (decide (dest_of (files w) src (a :: dst) = a :: dst)) as [E|E].
    - rewrite E in *. rewrite lookup_insert_eq.
      destruct (files w !! (a :: dst)) as [[|]|]; done.
    - by rewrite lookup_insert_ne. }
  assert (Hk' : dest_of (<[dest_of (files w) src dst := File data st]> (files w)) src dst
                = dest_of (files w) src dst).
  { unfold dest_of at 1. rewrite Hdir. done. }
  exists data, st. rewrite Hk'. split; [|split; [done|by rewrite lookup_insert_eq]].
  destruct src; [done|]. simpl in *. by rewrite lookup_insert_ne.
Qed.

(** ** Changes that only add or replace regular files *)

Lemma changes_refl R fs : changes R fs fs.
Proof. intros p. by left. Qed.

Lemma changes_trans R fs fs1 fs2 :
  changes R fs fs1 -> changes R fs1 fs2 -> changes R fs fs2.
Proof.
  intros H1 H2 p. destruct (H2 p) as [E2|(N2 & d2 & s2 & F2 & R2)].
  - rewrite E2. apply H1.
  - right. split; [|eauto].
    destruct (H1 p) as [E1|(N1 & d1 & s1 & F1 & R1)]; congruence.
Qed.

Lemma changes_insert (R : path -> node -> Prop) fs k data st :
  fs !! k <> Some Dir -> R k (File data st) ->
  changes R fs (<[k := File data st]> fs).
Proof.
  intros Hk HR p. destruct (decide (k = p)) as [<-|Hne].
  - right. split; [done|]. exists data, st. by rewrite lookup_insert_eq.
  - left. by rewrite lookup_insert_ne.
Qed.

Lemma changes_dir R fs fs1 p :
  changes R fs fs1 -> fs1 !! p = Some Dir <-> fs !! p = Some Dir.
Proof.
  intros H. destruct (H p) as [->|(N & d & s & F & _)]; [done|].
  rewrite F. split; [done|]. intros ?. done.
Qed.

Lemma changes_outside (R : path -> node -> Prop) fs fs1 p :
  changes R fs fs1 -> (forall x, ~ R p x) -> fs1 !! p = fs !! p.
Proof.
  intros H HR. destruct (H p) as [->|(N & d & s & F & HRp)]; [done|].
  by apply HR in HRp.
Qed.

Lemma changes_node_at (R : path -> node -> Prop) fs fs1 p :
  changes R fs fs1 -> (forall x, ~ R p x) -> node_at fs1 p = node_at fs p.
Proof. destruct p; [done|]. apply changes_outside. Qed.

Lemma changes_is_dir R fs fs1 p :
  changes R fs fs1 -> is_dir_fs fs1 p = is_dir_fs fs p.
Proof.
  intros H. unfold is_dir_fs. destruct p as [|a p]; [done|]. simpl.
  pose proof (changes_dir R fs fs1 (a :: p) H) as Hd.
  destruct (fs1 !! (a :: p)) as [[|]|], (fs !! (a :: p)) as [[|]|]; try done.
  all: try (by destruct Hd as [Hd _]; specialize (Hd eq_refl)).
  all: try (by destruct Hd as [_ Hd]; specialize (Hd eq_refl)).
Qed.

Lemma synced_changes (R : path -> node -> Prop) fs fs1 src dst :
  synced fs src dst -> changes R fs fs1 ->
  (forall x, ~ R src x) -> (forall x, ~ R (dest_of fs src dst) x) ->
  synced fs1 src dst.
Proof.
  intros (data & st & Hs & Hne & Hd) H Hsrc Hdst.
  assert (Hk : dest_of fs1 src dst = dest_of fs src dst).
  { unfold dest_of. by rewrite (changes_is_dir R fs fs1). }
  exists data, st. rewrite Hk. split; [|split; [done|]].
  - by rewrite (changes_node_at R fs fs1).
  - by rewrite (changes_outside R fs fs1).
Qed.

(** ** Directory listings *)

Lemma child_of_spec d p n : child_of d p = Some n <-> p = d ++ [n].
Proof.
  revert p. induction d as [|x d IH]; intros p.
  - destruct p as [|y [|z p]]; simpl; split; intros H; simplify_eq; done.
  - destruct p as [|y p]; simpl; [split; intros H; simplify_eq|].
    destruct (decide (x = y)) as [->|Hne].
    + rewrite IH. split; intros H; simplify_eq; done.
    + split; intros H; simplify_eq.
Qed.

Lemma elem_of_listdir fs d n : n ∈ listdir fs d <-> is_Some (fs !! (d ++ [n])).
Proof.
  unfold listdir. rewrite list_elem_of_omap. split.
  - intros ([p x] & Hin & Hc). apply elem_of_map_to_list in Hin.
    apply child_of_spec in Hc. simpl in Hc. subst p. eauto.
  - intros [x Hx]. exists (d ++ [n], x). split.
    + by apply elem_of_map_to_list.
    + by apply child_of_spec.
Qed.

(** ** Loops *)

Lemma for_each_inv {A} (I : world -> Prop) (l : list A) body :
  (forall x w, x ∈ l -> I w -> I (world_of (body x w))) ->
  forall w, I w -> I (world_of (for_each l body w)).
Proof.
  induction l as [|x l IH]; intros Hb w Hw; [done|].
  simpl. unfold bind.
  pose proof (Hb x w ltac:(left) Hw) as Hx.
  destruct (body x w) as [u w1|e w1]; [|done]. simpl in Hx.
  apply IH; [|done]. intros y w' Hy. apply Hb. by right.
Qed.

Lemma for_each_ok_post {A} (P : A -> world -> Prop) (l : list A) body :
  (forall x w1 u w2, x ∈ l -> body x w1 = Ok u w2 -> P x w2) ->
  (forall x y w1 u w2, x ∈ l -> y ∈ l -> P x w1 -> body y w1 = Ok u w2 -> P x w2) ->
  forall w u w', for_each l body w = Ok u w' -> forall x, x ∈ l -> P x w'.
Proof.
  intros Hest Hpres.
  assert (Hkeep : forall l' x w u w', (forall y, y ∈ l' -> y ∈ l) -> x ∈ l ->
            P x w -> for_each l' body w = Ok u w' -> P x w').
  { induction l' as [|y l' IH]; intros x w u w' Hsub Hx HP Hrun.
    - unfold for_each, ret in Hrun. by simplify_eq.
    - simpl in Hrun. apply bind_ok_inv in Hrun as (u1 & w1 & Hy & Hrun).
      eapply (IH x w1); [| |..|exact Hrun]; [intros; apply Hsub; by right|done|].
      eapply Hpres; [exact Hx| |exact HP|exact Hy]. apply Hsub. left. }
  assert (Hgen : forall l' w u w', (forall y, y ∈ l' -> y ∈ l) ->
            for_each l' body w = Ok u w' -> forall x, x ∈ l' -> P x w').
  { induction l' as [|y l' IH]; intros w u w' Hsub Hrun x Hx.
    - by apply elem_of_nil in Hx.
    - simpl in Hrun. apply bind_ok_inv in Hrun as (u1 & w1 & Hy & Hrun).
      apply elem_of_cons in Hx as [->|Hx].
      + eapply (Hkeep l' y w1); [intros; apply Hsub; by right|apply Hsub; left| |exact Hrun].
        eapply Hest; [|exact Hy]. apply Hsub. left.
      + eapply (IH w1); [intros; apply Hsub; by right|exact Hrun|done]. }
  intros w u w' Hrun. eapply Hgen; [|exact Hrun]. done.
Qed.

Lemma for_each_total {A} (I : world -> Prop) (l : list A) body :
  (forall x w, x ∈ l -> I w -> exists w', body x w = Ok tt w' /\ I w') ->
  forall w, I w -> exists w', for_each l body w = Ok tt w' /\ I w'.
Proof.
  induction l as [|x l IH]; intros Hb w Hw; [by exists w|].
  destruct (Hb x w ltac:(left) Hw) as (w1 & Hx & Hw1).
  destruct (IH (fun y w' Hy => Hb y w' ltac:(by right)) w1 Hw1) as (w2 & Hrun & Hw2).
  exists w2. split; [|done]. simpl. by rewrite (bind_ok _ _ _ _ _ Hx).
Qed.

Lemma for_each_raises {A} (I : world -> Prop) (Q : exn -> Prop) (l : list A) body x :
  x ∈ l ->
  (forall y w, y ∈ l -> I w -> I (world_of (body y w))) ->
  (forall y w e w', y ∈ l -> I w -> body y w = Raise e w' -> Q e) ->
  (forall w, I w -> exists e w', body x w = Raise e w') ->
  forall w, I w -> exists e w', for_each l body w = Raise e w' /\ Q e.
Proof.
  induction l as [|y l IH]; intros Hx Hinv HQ Hbad w Hw.
  { by apply elem_of_nil in Hx. }
  simpl. unfold bind.
  pose proof (Hinv y w ltac:(left) Hw) as Hy.
  destruct (body y w) as [u w1|e w1] eqn:E.
  - apply elem_of_cons in Hx as [->|Hx].
    + destruct (Hbad w Hw) as (e & w' & E'). congruence.
    + apply IH; try done.
      * intros z w' Hz. apply Hinv. by right.
      * intros z w' e w'' Hz. apply HQ. by right.
  - exists e, w1. split; [done|]. eapply HQ; [left|exact Hw|exact E].
Qed.

(** ** The loop bodies *)

Lemma dest_of_cases fs sd dd n :
  dest_of fs (sd ++ [n]) (dd ++ [n]) = dd ++ [n]
  \/ dest_of fs (sd ++ [n]) (dd ++ [n]) = dd ++ [n; n].
Proof.
  unfold dest_of. rewrite name_snoc.
  destruct (is_dir_fs fs (dd ++ [n])); [right|by left].
  by rewrite <- app_assoc.
Qed.

Lemma copy_body_ok_inv dd f w u w1 :
  copy_body dd f w = Ok u w1 ->
  exists w', copy2 f (dd ++ [name f]) w = Ok tt w'
    /\ files w1 = files w' /\ same_env w' w1.
Proof.
  unfold copy_body. intros ([] & w' & Hc & Hp)%bind_ok_inv.
  exists w'. split; [done|]. unfold print in Hp. by simplify_eq.
Qed.

Lemma copy_body_raise dd f w e w1 :
  copy_body dd f w = Raise e w1 ->
  copy2 f (dd ++ [name f]) w = Raise e w /\ w1 = w.
Proof.
  unfold copy_body, bind.
  destruct (copy2 f (dd ++ [name f]) w) as [u w'|e' w'] eqn:E; [done|].
  intros [= <- <-]. apply copy2_raise in E as E'. by subst.
Qed.

(** One pass of a loop body stays within what [R] allows. *)
Lemma copy_body_changes R fs0 sd dd n w :
  R_good R fs0 sd dd -> changes R fs0 (files w) ->
  let w' := world_of (copy_body dd (sd ++ [n]) w) in
  changes R fs0 (files w') /\ same_env w w'.
Proof.
  intros [Hallow Hsrc] Hch. cbn zeta.
  destruct (copy_body dd (sd ++ [n]) w) as [u w1|e w1] eqn:E.
  - apply copy_body_ok_inv in E as (w' & Hc & Hf & He1 & He2).
    rewrite name_snoc in Hc.
    apply copy2_ok_inv in Hc as (data & st & Hs & Hne & Hd & ->).
    cbn [world_of files clock umask set_fs] in *.
    split; [|by split]. rewrite Hf.
    eapply changes_trans; [exact Hch|].
    apply changes_insert; [done|]. apply Hallow.
    rewrite node_at_snoc in Hs.
    rewrite (changes_outside R fs0 (files w)) in Hs by (done || apply Hsrc).
    exists n. split; [apply dest_of_cases|done].
  - apply copy_body_raise in E as [_ ->]. simpl. done.
Qed.

Lemma copy_body_if_file_changes R fs0 sd dd n w :
  R_good R fs0 sd dd -> changes R fs0 (files w) ->
  let w' := world_of (copy_body_if_file dd (sd ++ [n]) w) in
  changes R fs0 (files w') /\ same_env w w'.
Proof.
  intros HR Hch. unfold copy_body_if_file. monad_simpl.
  destruct (is_file_fs (files w) (sd ++ [n])).
  - by apply copy_body_changes.
  - simpl. done.
Qed.

(** ** The three blocks of [copy_static_assets] *)

Lemma copy_js_files_eq : copy_js_files = copy_glob js_src js_dest "*.js".
Proof. reflexivity. Qed.

Lemma copy_fonts_eq : copy_fonts = copy_glob fonts_src fonts_dest "*.woff2".
Proof. reflexivity. Qed.

Lemma copy_glob_unfold sd dd pattern w :
  copy_glob sd dd pattern w
  = if is_dir_fs (files w) sd
    then for_each
           (map (fun n => sd ++ [n])
                (filter (fun n => fnmatch pattern n = true) (listdir (files w) sd)))
           (copy_body dd) w
    else Ok tt w.
Proof.
  unfold copy_glob, glob. monad_simpl. unfold exists_fs, is_dir_fs.
  destruct (node_at (files w) sd) as [[|]|] eqn:E; cbn beta iota; rewrite ?E; done.
Qed.

Lemma iterdir_eq d w :
  iterdir d w
  = match node_at (files w) d with
    | None => Raise FileNotFoundError w
    | Some (File _ _) => Raise NotADirectoryError w
    | Some Dir => Ok (map (fun n => d ++ [n]) (listdir (files w) d)) w
    end.
Proof.
  unfold iterdir. monad_simpl. by destruct (node_at (files w) d) as [[|]|].
Qed.

Lemma copy_images_unfold w :
  copy_images w
  = match node_at (files w) img_src with
    | None => Ok tt w
    | Some (File _ _) => Raise NotADirectoryError w
    | Some Dir =>
        for_each (map (fun n => img_src ++ [n]) (listdir (files w) img_src))
                 (copy_body_if_file img_dest) w
    end.
Proof.
  unfold copy_images. cbn zeta. fold img_src. fold img_dest.
  rewrite (bind_ok _ _ w (exists_fs (files w) img_src) w) by reflexivity.
  unfold exists_fs.
  destruct (node_at (files w) img_src) as [[|]|] eqn:E; cbn beta iota.
  - rewrite (bind_raise _ _ w NotADirectoryError w); [done|].
    rewrite (bind_raise _ _ w NotADirectoryError w); [done|].
    by rewrite iterdir_eq, E.
  - rewrite (bind_ok _ _ w (negb (bool_decide (listdir (files w) img_src = []))) w).
    2:{ erewrite bind_ok; [|by rewrite iterdir_eq, E]. unfold ret. do 2 f_equal.
        by destruct (listdir (files w) img_src). }
    destruct (listdir (files w) img_src) as [|n l] eqn:El; [reflexivity|].
    cbn [negb bool_decide]. rewrite bool_decide_eq_false_2 by done. cbn [negb].
    erewrite bind_ok; [|by rewrite iterdir_eq, E, El]. reflexivity.
  - reflexivity.
Qed.

Lemma bind_inv {A B} (I : world -> Prop) (c : M A) (k : A -> M B) w :
  I (world_of (c w)) ->
  (forall a w1, c w = Ok a w1 -> I w1 -> I (world_of (k a w1))) ->
  I (world_of (bind c k w)).
Proof.
  unfold bind. destruct (c w) as [a w1|e w1]; simpl; [|done]. eauto.
Qed.

Lemma same_env_trans w w1 w2 : same_env w w1 -> same_env w1 w2 -> same_env w w2.
Proof. intros [? ?] [? ?]. split; congruence. Qed.

Lemma copy_glob_changes R fs0 sd dd pattern w :
  R_good R fs0 sd dd -> changes R fs0 (files w) ->
  let w' := world_of (copy_glob sd dd pattern w) in
  changes R fs0 (files w') /\ same_env w w'.
Proof.
  intros HR Hch. cbn zeta. rewrite copy_glob_unfold.
  destruct (is_dir_fs (files w) sd); [|done].
  apply (for_each_inv (fun w' => changes R fs0 (files w') /\ same_env w w')); [|done].
  intros f w1 (n & -> & _)%list_elem_of_fmap [Hch1 He1].
  destruct (copy_body_changes R fs0 sd dd n w1 HR Hch1) as [? ?].
  split; [done|]. by eapply same_env_trans.
Qed.

Lemma copy_images_changes R fs0 w :
  R_good R fs0 img_src img_dest -> changes R fs0 (files w) ->
  let w' := world_of (copy_images w) in
  changes R fs0 (files w') /\ same_env w w'.
Proof.
  intros HR Hch. cbn zeta. rewrite copy_images_unfold.
  destruct (node_at (files w) img_src) as [[|]|]; try done.
  apply (for_each_inv (fun w' => changes R fs0 (files w') /\ same_env w w')); [|done].
  intros f w1 (n & -> & _)%list_elem_of_fmap [Hch1 He1].
  destruct (copy_body_if_file_changes R fs0 img_src img_dest n w1 HR Hch1) as [? ?].
  split; [done|]. by eapply same_env_trans.
Qed.

Lemma copy_static_assets_changes R fs0 w :
  R_good R fs0 js_src js_dest -> R_good R fs0 fonts_src fonts_dest ->
  R_good R fs0 img_src img_dest -> changes R fs0 (files w) ->
  let w' := world_of (copy_static_assets w) in
  changes R fs0 (files w') /\ same_env w w'.
Proof.
  intros Hj Hf Hi Hch. cbn zeta. unfold copy_static_assets.
  rewrite copy_js_files_eq, copy_fonts_eq.
  apply (bind_inv (fun w' => changes R fs0 (files w') /\ same_env w w')).
  { by apply copy_glob_changes. }
  intros _ w1 _ [Hch1 He1].
  apply (bind_inv (fun w' => changes R fs0 (files w') /\ same_env w w')).
  { destruct (copy_glob_changes R fs0 fonts_src fonts_dest "*.woff2" w1 Hf Hch1).
    split; [done|]. by eapply same_env_trans. }
  intros _ w2 _ [Hch2 He2].
  destruct (copy_images_changes R fs0 w2 Hi Hch2).
  split; [done|]. by eapply same_env_trans.
Qed.

Lemma R_copy_good fs0 :
  R_good (R_copy fs0) fs0 js_src js_dest
  /\ R_good (R_copy fs0) fs0 fonts_src fonts_dest
  /\ R_good (R_copy fs0) fs0 img_src img_dest.
Proof.
  assert (Hsrc : forall sd n x, (sd = js_src \/ sd = fonts_src \/ sd = img_src) ->
            ~ R_copy fs0 (sd ++ [n]) x).
  { intros sd n x Hsd [H|[H|H]]; destruct H as (m & [E|E] & _);
      destruct Hsd as [->|[->| ->]]; discriminate E. }
  unfold R_good. repeat split; try (unfold R_copy; by auto).
  all: intros n x; apply Hsrc; auto.
Qed.

(** ** The footprint of [copy_static_assets] *)

Lemma R_cat_under fs0 sd dd p x :
  R_cat fs0 sd dd p x ->
  exists n, under dd p /\ name p = n /\ fs0 !! (sd ++ [n]) = Some x.
Proof.
  intros (n & [-> | ->] & Hn); exists n.
  - split; [by exists [n]|]. split; [apply name_snoc|done].
  - split; [by exists [n; n]|]. split; [|done].
    replace (dd ++ [n; n]) with ((dd ++ [n]) ++ [n]) by (by rewrite <- app_assoc).
    apply name_snoc.
Qed.

(** C10: whatever the outcome of [copy_static_assets], every entry that
    differs afterwards lies below one of the three destination directories,
    is a regular file named like a direct child of the matching source
    directory and is identical to that child (contents and metadata); nothing
    in or below [build/static/css] changes, and nothing below [src/static]
    changes. *)
Theorem copy_static_assets_frame w :
  let w' := world_of (copy_static_assets w) in
  (forall p, files w' !! p <> files w !! p ->
     exists sd dd n data st,
       (sd, dd) ∈ categories /\ under dd p /\ name p = n
       /\ files w !! (sd ++ [n]) = Some (File data st)
       /\ files w' !! p = Some (File data st))
  /\ (forall p, ~ under js_dest p -> ~ under fonts_dest p -> ~ under img_dest p ->
        files w' !! p = files w !! p)
  /\ (forall p, p = build_static ++ ["css"] \/ under (build_static ++ ["css"]) p ->
        files w' !! p = files w !! p)
  /\ (forall p, p = src_static \/ under src_static p ->
        files w' !! p = files w !! p).
Proof.
  cbn zeta.
  destruct (R_copy_good (files w)) as (Hj & Hf & Hi).
  destruct (copy_static_assets_changes (R_copy (files w)) (files w) w Hj Hf Hi
              (changes_refl _ _)) as [Hch _].
  set (w' := world_of (copy_static_assets w)) in *. clearbody w'.
  assert (H1 : forall p, files w' !! p <> files w !! p ->
     exists sd dd n data st,
       (sd, dd) ∈ categories /\ under dd p /\ name p = n
       /\ files w !! (sd ++ [n]) = Some (File data st)
       /\ files w' !! p = Some (File data st)).
  { intros p Hp. destruct (Hch p) as [E|(_ & data & st & E & HR)]; [done|].
    destruct HR as [HR|[HR|HR]];
      apply R_cat_under in HR as (n & Hu & Hn & Hs).
    - exists js_src, js_dest, n, data, st. split; [unfold categories; in_list|done].
    - exists fonts_src, fonts_dest, n, data, st. split; [unfold categories; in_list|done].
    - exists img_src, img_dest, n, data, st. split; [unfold categories; in_list|done]. }
  assert (H2 : forall p, ~ under js_dest p -> ~ under fonts_dest p ->
                ~ under img_dest p -> files w' !! p = files w !! p).
  { intros p Nj Nf Ni. destruct (decide (files w' !! p = files w !! p)) as [|Hne]; [done|].
    destruct (H1 p Hne) as (sd & dd & n & data & st & Hc & Hu & _).
    unfold categories in Hc.
    repeat (apply elem_of_cons in Hc as [[= -> ->]|Hc]); try done.
    by apply elem_of_nil in Hc. }
  split; [exact H1|]. split; [exact H2|]. split.
  - intros p Hp. apply H2; intros (r & Hr & ->);
      destruct Hp as [E|(r' & _ & E)]; simplify_eq/=.
  - intros p Hp. apply H2; intros (r & Hr & ->);
      destruct Hp as [E|(r' & _ & E)]; simplify_eq/=.
Qed.

(** ** Failures of the copy blocks *)

Lemma for_each_raise_inv {A} (l : list A) body w e w' :
  for_each l body w = Raise e w' ->
  exists x w1, x ∈ l /\ body x w1 = Raise e w'.
Proof.
  revert w. induction l as [|x l IH]; intros w; [done|].
  simpl. unfold bind. destruct (body x w) as [u w1|e1 w1] eqn:E.
  - intros (y & w2 & Hy & Hr)%IH. exists y, w2. split; [by right|done].
  - intros [= <- <-]. exists x, w. split; [left|done].
Qed.

Lemma copy2_raise_fs src dst w e w1 :
  copy2 src dst w = Raise e w1 -> is_fs_error e = true.
Proof.
  rewrite copy2_eq. unfold copy2_result. cbn zeta.
  repeat case_match; intros [= <- _]; done.
Qed.

Lemma copy_body_raise_fs dd f w e w1 :
  copy_body dd f w = Raise e w1 -> is_fs_error e = true.
Proof. intros [H _]%copy_body_raise. by eapply copy2_raise_fs. Qed.

Lemma copy_glob_raise_fs sd dd pattern w e w1 :
  copy_glob sd dd pattern w = Raise e w1 -> is_fs_error e = true.
Proof.
  rewrite copy_glob_unfold. destruct (is_dir_fs (files w) sd); [|done].
  intros (x & w2 & _ & H)%for_each_raise_inv. by eapply copy_body_raise_fs.
Qed.

(** Copying a directory with [copy2] raises [IsADirectoryError]. *)
Lemma copy_body_dir sd dd n w :
  apart sd dd -> files w !! (sd ++ [n]) = Some Dir ->
  copy_body dd (sd ++ [n]) w = Raise IsADirectoryError w.
Proof.
  intros Hap Hn. unfold copy_body. apply bind_raise. rewrite copy2_eq.
  unfold copy2_result. cbn zeta. rewrite name_snoc.
  rewrite bool_decide_eq_false_2.
  - simpl. by rewrite node_at_snoc, Hn.
  - destruct (Hap n n) as [H1 H2].
    destruct (dest_of_cases (files w) sd dd n) as [-> | ->]; done.
Qed.

(** A block that meets a directory among the entries it selected raises. *)
Lemma copy_glob_dir R fs0 sd dd pattern n w :
  apart sd dd -> R_good R fs0 sd dd -> changes R fs0 (files w) ->
  files w !! sd = Some Dir -> fnmatch pattern n = true ->
  files w !! (sd ++ [n]) = Some Dir ->
  exists e w', copy_glob sd dd pattern w = Raise e w' /\ is_fs_error e = true.
Proof.
  intros Hap HR Hch Hsd Hpat Hn. rewrite copy_glob_unfold.
  assert (Hd : is_dir_fs (files w) sd = true).
  { unfold is_dir_fs. destruct sd; [done|]. simpl. by rewrite Hsd. }
  rewrite Hd.
  assert (Hdir0 : fs0 !! (sd ++ [n]) = Some Dir) by (by apply (changes_dir R fs0 (files w))).
  eapply (for_each_raises
            (fun w' => changes R fs0 (files w'))
            (fun e => is_fs_error e = true) _ _ (sd ++ [n])).
  - apply list_elem_of_fmap. exists n. split; [done|].
    apply list_elem_of_filter. split; [done|]. apply elem_of_listdir. eauto.
  - intros y w1 (m & -> & _)%list_elem_of_fmap Hw1.
    by apply (copy_body_changes R fs0 sd dd m w1).
  - intros y w1 e w2 _ _ H. by eapply copy_body_raise_fs.
  - intros w1 Hw1. exists IsADirectoryError, w1. apply copy_body_dir; [done|].
    by apply (changes_dir R fs0 (files w1)).
  - done.
Qed.

Lemma apart_js : apart js_src js_dest.
Proof. intros n m. split; discriminate. Qed.

Lemma apart_fonts : apart fonts_src fonts_dest.
Proof. intros n m. split; discriminate. Qed.

Lemma apart_img : apart img_src img_dest.
Proof. intros n m. split; discriminate. Qed.

(** The image loop passes over an entry that is not a regular file. *)
Lemma copy_body_if_file_skip dd f w :
  is_file_fs (files w) f = false -> copy_body_if_file dd f w = Ok tt w.
Proof. intros H. unfold copy_body_if_file. monad_simpl. by rewrite H. Qed.

Lemma copy_images_no_files w :
  files w !! img_src = Some Dir ->
  (forall n, is_file_fs (files w) (img_src ++ [n]) = false) ->
  copy_images w = Ok tt w.
Proof.
  intros Hd Hnf. rewrite copy_images_unfold.
  change (node_at (files w) img_src) with (files w !! img_src). rewrite Hd.
  destruct (for_each_total (fun w' => w' = w)
              (map (fun n => img_src ++ [n]) (listdir (files w) img_src))
              (copy_body_if_file img_dest)) with (w := w) as (w' & Hrun & ->);
    [|done|done].
  intros f w1 (n & -> & _)%list_elem_of_fmap ->. exists w. split; [|done].
  by apply copy_body_if_file_skip.
Qed.

(** C9: when [src/static/js] holds a directory whose name matches [*.js],
    or [src/static/fonts] one whose name matches [*.woff2],
    [copy_static_assets] raises a file-system error instead of passing over
    it; the image block, in contrast, passes over every entry that is not a
    regular file, and returns without a change when the image directory holds
    no regular file at all. *)
Theorem copy_static_assets_matching_dir w sd n :
  (sd = js_src /\ fnmatch "*.js" n = true
   \/ sd = fonts_src /\ fnmatch "*.woff2" n = true) ->
  files w !! sd = Some Dir ->
  files w !! (sd ++ [n]) = Some Dir ->
  (exists e w', copy_static_assets w = Raise e w' /\ is_fs_error e = true)
  /\ (forall w2 m, is_file_fs (files w2) (img_src ++ [m]) = false ->
        copy_body_if_file img_dest (img_src ++ [m]) w2 = Ok tt w2)
  /\ (forall w2, files w2 !! img_src = Some Dir ->
        (forall m, is_file_fs (files w2) (img_src ++ [m]) = false) ->
        copy_images w2 = Ok tt w2).
Proof.
  intros Hcat Hsd Hn. split; [|split].
  2:{ intros w2 m. apply copy_body_if_file_skip. }
  2:{ apply copy_images_no_files. }
  destruct (R_copy_good (files w)) as (Hj & Hf & Hi).
  unfold copy_static_assets. rewrite copy_js_files_eq, copy_fonts_eq.
  destruct Hcat as [[-> Hpat]|[-> Hpat]].
  - destruct (copy_glob_dir (R_copy (files w)) (files w) js_src js_dest "*.js" n w
                apart_js Hj (changes_refl _ _) Hsd Hpat Hn)
      as (e & w' & Hr & He).
    exists e, w'. split; [|done]. by apply bind_raise.
  - destruct (copy_glob js_src js_dest "*.js" w) as [u w1|e w1] eqn:Ejs.
    + pose proof (copy_glob_changes (R_copy (files w)) (files w) js_src js_dest
                    "*.js" w Hj (changes_refl _ _)) as [Hch _].
      rewrite Ejs in Hch. simpl in Hch.
      apply (changes_dir _ _ _ _ Hch) in Hsd, Hn.
      destruct (copy_glob_dir (R_copy (files w)) (files w) fonts_src fonts_dest
                  "*.woff2" n w1 apart_fonts Hf Hch Hsd Hpat Hn)
        as (e & w' & Hr & He).
      exists e, w'. split; [|done].
      rewrite (bind_ok _ _ _ _ _ Ejs). by apply bind_raise.
    + exists e, w1. split; [by apply bind_raise|]. by eapply copy_glob_raise_fs.
Qed.

Lemma copy_static_assets_matching_dir_witness :
  (exists e w', copy_static_assets dir_js_world = Raise e w' /\ is_fs_error e = true)
  /\ (forall w2 m, is_file_fs (files w2) (img_src ++ [m]) = false ->
        copy_body_if_file img_dest (img_src ++ [m]) w2 = Ok tt w2)
  /\ (forall w2, files w2 !! img_src = Some Dir ->
        (forall m, is_file_fs (files w2) (img_src ++ [m]) = false) ->
        copy_images w2 = Ok tt w2).
Proof.
  apply (copy_static_assets_matching_dir dir_js_world js_src "x.js").
  - left. split; reflexivity.
  - vm_compute. reflexivity.
  - vm_compute. reflexivity.
Defined.

(** ** Categories with nothing to copy *)

Lemma copy_glob_skip sd dd pattern w :
  sd <> [] -> no_match (files w) sd pattern -> copy_glob sd dd pattern w = Ok tt w.
Proof.
  intros Hne Hno. rewrite copy_glob_unfold. unfold is_dir_fs.
  destruct sd as [|a sd]; [done|]. simpl node_at.
  destruct Hno as [-> | Hno]; [done|].
  destruct (files w !! (a :: sd)) as [[|]|]; try done.
  assert (E : filter (fun n => fnmatch pattern n = true) (listdir (files w) (a :: sd)) = []).
  { destruct (filter _ _) as [|n l] eqn:E; [done|].
    assert (Hin : n ∈ filter (fun n => fnmatch pattern n = true)
                         (listdir (files w) (a :: sd))) by (rewrite E; left).
    apply list_elem_of_filter in Hin as [Hpat [x Hx]%elem_of_listdir].
    by rewrite (Hno n Hpat) in Hx. }
  by rewrite E.
Qed.

Lemma copy_images_skip w : no_images (files w) -> copy_images w = Ok tt w.
Proof.
  intros [Hno|[Hd Hnf]].
  - rewrite copy_images_unfold.
    change (node_at (files w) img_src) with (files w !! img_src). by rewrite Hno.
  - by apply copy_images_no_files.
Qed.

Lemma R_copy_not_img_src fs0 x : ~ R_copy fs0 img_src x.
Proof. intros [H|[H|H]]; destruct H as (n & [E|E] & _); discriminate E. Qed.

(** C4: when [src/static/images] does not exist, the image block neither
    raises nor writes: [copy_static_assets] is the JavaScript block followed
    by the font block, and no entry below [build/static/images] differs
    afterwards.  More generally a category whose source directory is absent,
    or holds no qualifying entry, is passed over, and when that is so for all
    three, [copy_static_assets] returns having changed and printed nothing. *)
Theorem copy_static_assets_skips w :
  files w !! img_src = None ->
  copy_static_assets w = (copy_js_files ;; copy_fonts) w
  /\ (forall p, p = img_dest \/ under img_dest p ->
        files (world_of (copy_static_assets w)) !! p = files w !! p)
  /\ (forall w2, no_match (files w2) js_src "*.js" -> copy_js_files w2 = Ok tt w2)
  /\ (forall w2, no_match (files w2) fonts_src "*.woff2" -> copy_fonts w2 = Ok tt w2)
  /\ (forall w2, no_images (files w2) -> copy_images w2 = Ok tt w2)
  /\ (forall w2, no_match (files w2) js_src "*.js" ->
        no_match (files w2) fonts_src "*.woff2" -> no_images (files w2) ->
        copy_static_assets w2 = Ok tt w2).
Proof.
  intros Himg.
  assert (Hjs : forall w2, no_match (files w2) js_src "*.js" -> copy_js_files w2 = Ok tt w2).
  { intros w2. rewrite copy_js_files_eq. by apply copy_glob_skip. }
  assert (Hfo : forall w2, no_match (files w2) fonts_src "*.woff2" -> copy_fonts w2 = Ok tt w2).
  { intros w2. rewrite copy_fonts_eq. by apply copy_glob_skip. }
  destruct (R_copy_good (files w)) as (Hj & Hf & Hi).
  assert (Heq : copy_static_assets w = (copy_js_files ;; copy_fonts) w).
  { unfold copy_static_assets. unfold bind at 1 3.
    pose proof (copy_glob_changes (R_copy (files w)) (files w) js_src js_dest
                  "*.js" w Hj (changes_refl _ _)) as [Hch1 _].
    rewrite <- copy_js_files_eq in Hch1.
    destruct (copy_js_files w) as [u1 w1|e1 w1]; [|done]. simpl in Hch1.
    unfold bind.
    pose proof (copy_glob_changes (R_copy (files w)) (files w) fonts_src fonts_dest
                  "*.woff2" w1 Hf Hch1) as [Hch2 _].
    rewrite <- copy_fonts_eq in Hch2.
    destruct (copy_fonts w1) as [[] w2|e2 w2]; [|done]. simpl in Hch2.
    apply copy_images_skip. left.
    rewrite (changes_outside _ _ _ _ Hch2); [done|]. apply R_copy_not_img_src. }
  set (R2 := fun p x => R_cat (files w) js_src js_dest p x
                        \/ R_cat (files w) fonts_src fonts_dest p x).
  assert (G1 : R_good R2 (files w) js_src js_dest).
  { split; [by left|].
    intros m x [H|H]; destruct H as (k & [E'|E'] & _); discriminate E'. }
  assert (G2 : R_good R2 (files w) fonts_src fonts_dest).
  { split; [by right|].
    intros m x [H|H]; destruct H as (k & [E'|E'] & _); discriminate E'. }
  assert (Hch : changes R2 (files w)
                  (files (world_of ((copy_js_files ;; copy_fonts) w)))).
  { apply (bind_inv (fun w' => changes R2 (files w) (files w'))).
    - rewrite copy_js_files_eq. by apply copy_glob_changes, changes_refl.
    - intros _ w1 _ Hch1. rewrite copy_fonts_eq. by apply copy_glob_changes. }
  split; [exact Heq|]. split; [|split; [exact Hjs|split; [exact Hfo|split]]].
  - intros p Hp. rewrite Heq. apply (changes_outside _ _ _ _ Hch).
    intros x [H|H]; destruct H as (k & [-> | ->] & _);
      destruct Hp as [Hp|(r & _ & Hp)]; simplify_eq/=.
  - intros w2. apply copy_images_skip.
  - intros w2 H1 H2 H3. unfold copy_static_assets.
    rewrite (bind_ok _ _ _ _ _ (Hjs w2 H1)), (bind_ok _ _ _ _ _ (Hfo w2 H2)).
    by apply copy_images_skip.
Qed.

Lemma copy_static_assets_skips_witness :
  copy_static_assets empty_world = (copy_js_files ;; copy_fonts) empty_world
  /\ (forall p, p = img_dest \/ under img_dest p ->
        files (world_of (copy_static_assets empty_world)) !! p
        = files empty_world !! p)
  /\ (forall w2, no_match (files w2) js_src "*.js" -> copy_js_files w2 = Ok tt w2)
  /\ (forall w2, no_match (files w2) fonts_src "*.woff2" -> copy_fonts w2 = Ok tt w2)
  /\ (forall w2, no_images (files w2) -> copy_images w2 = Ok tt w2)
  /\ (forall w2, no_match (files w2) js_src "*.js" ->
        no_match (files w2) fonts_src "*.woff2" -> no_images (files w2) ->
        copy_static_assets w2 = Ok tt w2).
Proof.
  apply (copy_static_assets_skips empty_world). reflexivity.
Defined.

(** ** Template lookup *)

Lemma get_source_unresolved env fs template_name :
  ~ resolves env fs template_name ->
  get_source env fs template_name = inl TemplateNotFound.
Proof.
  intros Hno. unfold get_source.
  destruct (split_template_path template_name) as [pieces|] eqn:Hs; [|done].
  destruct (node_at fs (loader env ++ pieces)) as [[data st|]|] eqn:Hn; try done.
  exfalso. apply Hno. by exists pieces, data, st.
Qed.

Lemma render_template_unresolved (J : Engine) env template_name output_path ctx w :
  ~ resolves env (files w) template_name ->
  render_template J env template_name output_path ctx w = Raise TemplateNotFound w.
Proof.
  intros Hno. unfold render_template. cbn zeta. apply bind_raise.
  unfold get_template. monad_simpl. by rewrite get_source_unresolved.
Qed.

(** C3: for every engine, environment and world, a template name that does
    not resolve under the template directory makes [render_template] raise
    [TemplateNotFound] in the very world it started from: the lookup fails
    before the output file is opened, so the destination (like everything
    else) is neither created nor changed, and nothing is printed. *)
Theorem render_template_not_found (J : Engine) env template_name output_path ctx w :
  ~ resolves env (files w) template_name ->
  render_template J env template_name output_path ctx w = Raise TemplateNotFound w
  /\ files (world_of (render_template J env template_name output_path ctx w))
       !! output_path = files w !! output_path.
Proof.
  intros Hno.
  by rewrite (render_template_unresolved J env template_name output_path ctx w Hno).
Qed.

Lemma render_template_not_found_witness :
  render_template MiniJinja.engine jinja_env "index.html" ["build"; "index.html"]
    None empty_world = Raise TemplateNotFound empty_world
  /\ files (world_of (render_template MiniJinja.engine jinja_env "index.html"
                        ["build"; "index.html"] None empty_world))
       !! ["build"; "index.html"] = files empty_world !! ["build"; "index.html"].
Proof.
  apply (render_template_not_found MiniJinja.engine jinja_env "index.html"
           ["build"; "index.html"] None empty_world).
  intros (pieces & data & st & Hs & Hn).
  vm_compute in Hs. injection Hs as <-. vm_compute in Hn. discriminate Hn.
Defined.

(** ** Initialising the environment *)

Lemma wf_below_dir fs (d rest : path) x :
  wf fs -> d <> [] -> rest <> [] -> fs !! (d ++ rest) = Some x -> fs !! d = Some Dir.
Proof.
  intros Hwf Hd. revert x. induction rest as [|n rest IH] using rev_ind; [done|].
  intros x _ Hx. rewrite app_assoc in Hx.
  apply Hwf in Hx. cbn beta in Hx. rewrite parent_snoc in Hx.
  destruct rest as [|m rest].
  - rewrite app_nil_r in Hx. by destruct d.
  - apply (IH Dir); [done|]. destruct d; [done|]. exact Hx.
Qed.

Lemma setup_jinja_env_eq w : setup_jinja_env w = Ok jinja_env w.
Proof. reflexivity. Qed.

(** C6 (as amended): [setup_jinja_env] always returns, without looking at
    or changing the file system; when the template directory is missing the
    failure is deferred: on a well-formed state every template lookup through
    the returned environment then raises [TemplateNotFound]. *)
Theorem setup_jinja_env_defers w :
  wf (files w) ->
  files w !! ["src"; "templates"] = None ->
  setup_jinja_env w = Ok jinja_env w
  /\ loader jinja_env = ["src"; "templates"]
  /\ forall (J : Engine) template_name output_path ctx,
       render_template J jinja_env template_name output_path ctx w
       = Raise TemplateNotFound w.
Proof.
  intros Hwf Hno. split; [reflexivity|]. split; [reflexivity|].
  intros J template_name output_path ctx.
  apply render_template_unresolved.
  intros (pieces & data & st & _ & Hn). simpl loader in Hn.
  destruct pieces as [|n pieces].
  - simpl in Hn. congruence.
  - assert (Hd : files w !! ["src"; "templates"] = Some Dir).
    { eapply (wf_below_dir _ ["src"; "templates"] (n :: pieces)); try done. }
    congruence.
Qed.

Lemma setup_jinja_env_defers_witness :
  setup_jinja_env empty_world = Ok jinja_env empty_world
  /\ loader jinja_env = ["src"; "templates"]
  /\ forall (J : Engine) template_name output_path ctx,
       render_template J jinja_env template_name output_path ctx empty_world
       = Raise TemplateNotFound empty_world.
Proof.
  apply (setup_jinja_env_defers empty_world).
  - unfold wf, empty_world. simpl. apply map_Forall_empty.
  - reflexivity.
Defined.

(** C6 (as stated) fails: with no template directory at all, initialisation
    returns an environment and reports nothing. *)
Lemma setup_jinja_env_no_check :
  files empty_world !! ["src"; "templates"] = None
  /\ setup_jinja_env empty_world = Ok jinja_env empty_world
  /\ ~ (forall w, files w !! ["src"; "templates"] = None ->
          exists e w', setup_jinja_env w = Raise e w').
Proof.
  split; [reflexivity|]. split; [reflexivity|].
  intros H. destruct (H empty_world eq_refl) as (e & w' & E). discriminate E.
Qed.

(** ** Rendering in the fragment *)

Lemma str_app_cons c (a b : string) : String c a +:+ b = String c (a +:+ b).
Proof. reflexivity. Qed.










(** The spec's example, from template text to output file. *)
Example render_page_td :
  exists w',
    render_template MiniJinja.engine jinja_env "index.html" ["build"; "index.html"]
      (Some td_context) page_world = Ok tt w'
    /\ files w' !! ["build"; "index.html"]
       = Some (File "<h1>T</h1><p>D</p>" (Stat 420 100)).
Proof. eexists. split; vm_compute; reflexivity. Qed.

(** A value with markup in it comes out escaped. *)
Example render_page_escaped :
  exists w',
    render_template MiniJinja.engine jinja_env "index.html" ["build"; "index.html"]
      (Some (<["title" := "<b>T</b>"]> td_context)) page_world = Ok tt w'
    /\ files w' !! ["build"; "index.html"]
       = Some (File "<h1>&lt;b&gt;T&lt;/b&gt;</h1><p>D</p>" (Stat 420 100)).
Proof. eexists. split; vm_compute; reflexivity. Qed.

(** ** Keys the context lacks *)





(** ** Copying into destinations that are not directories *)

Lemma copy_body_plain sd dd n data st w :
  apart sd dd ->
  files w !! (sd ++ [n]) = Some (File data st) ->
  files w !! dd = Some Dir ->
  files w !! (dd ++ [n]) <> Some Dir ->
  exists w1,
    copy_body dd (sd ++ [n]) w = Ok tt w1
    /\ files w1 = <[dd ++ [n] := File data st]> (files w)
    /\ same_env w w1.
Proof.
  intros Hap Hs Hdd Hdst.
  assert (Hk : dest_of (files w) (sd ++ [n]) (dd ++ [n]) = dd ++ [n]).
  { unfold dest_of, is_dir_fs. rewrite node_at_snoc.
    by destruct (files w !! (dd ++ [n])) as [[|]|]. }
  assert (Hc : copy2 (sd ++ [n]) (dd ++ [n]) w
               = Ok tt (set_fs w (<[dd ++ [n] := File data st]> (files w)))).
  { rewrite copy2_eq. unfold copy2_result. cbn zeta. rewrite Hk.
    rewrite bool_decide_eq_false_2 by apply Hap. simpl.
    rewrite !node_at_snoc, Hs, parent_snoc.
    assert (node_at (files w) dd = Some Dir) as -> by (by destruct dd).
    by destruct (files w !! (dd ++ [n])) as [[|]|]. }
  eexists. unfold copy_body. rewrite name_snoc, (bind_ok _ _ _ _ _ Hc).
  split; [reflexivity|]. done.
Qed.

Lemma copy_loop_plain sd dd (l : list string) : forall w,
  apart sd dd ->
  files w !! dd = Some Dir ->
  (forall n, n ∈ l -> files w !! (dd ++ [n]) <> Some Dir) ->
  (forall n, n ∈ l -> exists data st, files w !! (sd ++ [n]) = Some (File data st)) ->
  exists w1,
    for_each (map (fun n => sd ++ [n]) l) (copy_body dd) w = Ok tt w1
    /\ same_env w w1
    /\ (forall n, n ∈ l -> files w1 !! (dd ++ [n]) = files w !! (sd ++ [n]))
    /\ (forall p, (forall n, n ∈ l -> p <> dd ++ [n]) -> files w1 !! p = files w !! p).
Proof.
  induction l as [|n l IH]; intros w Hap Hdd Hdst Hsrc.
  { exists w. repeat split; try done. intros n Hn. by apply elem_of_nil in Hn. }
  destruct (Hsrc n ltac:(left)) as (data & st & Hs).
  destruct (copy_body_plain sd dd n data st w Hap Hs Hdd (Hdst n ltac:(left)))
    as (w' & Hrun & Hf & He).
  assert (Hne : forall m, sd ++ [m] <> dd ++ [n]) by (intros m; apply Hap).
  assert (Hdn : dd <> dd ++ [n]).
  { intros E%(f_equal length). rewrite length_app in E. simpl in E. lia. }
  destruct (IH w') as (w1 & Hrun1 & He1 & Hcop & Hoth).
  - done.
  - rewrite Hf. by rewrite lookup_insert_ne.
  - intros m Hm. rewrite Hf. destruct (decide (m = n)) as [->|Hmn].
    + by rewrite lookup_insert_eq.
    + rewrite lookup_insert_ne; [apply Hdst; by right|].
      intros ?%app_inv_head. by simplify_eq.
  - intros m Hm. rewrite Hf. rewrite lookup_insert_ne by (by apply not_eq_sym).
    apply Hsrc. by right.
  - exists w1. split; [|split; [by eapply same_env_trans|split]].
    + simpl. by rewrite (bind_ok _ _ _ _ _ Hrun).
    + intros m Hm. destruct (decide (m ∈ l)) as [Hin|Hnin].
      * rewrite (Hcop m Hin), Hf. by rewrite lookup_insert_ne by (by apply not_eq_sym).
      * apply elem_of_cons in Hm as [->|Hm]; [|done].
        rewrite Hoth.
        -- by rewrite Hf, lookup_insert_eq.
        -- intros k Hk E%app_inv_head. by simplify_eq.
    + intros p Hp. rewrite Hoth by (intros k Hk; apply Hp; by right).
      rewrite Hf. rewrite lookup_insert_ne; [done|].
      apply not_eq_sym, Hp. left.
Qed.

Lemma provisioned_lookup w bd w1 q :
  ensure_build_dirs w = Ok bd w1 -> q ∉ build_tree ->
  files w1 !! q = files w !! q.
Proof.
  intros (_ & (fs1 & -> & E & _) & _)%ensure_build_dirs_inv Hq. simpl.
  destruct (E q) as [?|(_ & _ & ?)]; done.
Qed.

Lemma provisioned_keeps w bd w1 q x :
  ensure_build_dirs w = Ok bd w1 -> files w !! q = Some x -> files w1 !! q = Some x.
Proof.
  intros (_ & (fs1 & -> & E & _) & _)%ensure_build_dirs_inv Hq. simpl.
  by eapply dir_ext_lookup.
Qed.

Lemma under_not_build_tree d p :
  length d = 3 -> under d p -> p ∉ build_tree.
Proof.
  intros Hd (rest & Hr & ->) Hin. unfold build_tree in Hin.
  repeat (apply elem_of_cons in Hin as [E|Hin];
          [apply (f_equal length) in E; rewrite length_app in E; simpl in E;
           destruct rest; [done|simpl in E; lia]|]).
  by apply elem_of_nil in Hin.
Qed.

(** What the font and image blocks may write, given the state they start
    from. *)
Lemma fonts_images_changes w :
  changes (fun p x => R_cat (files w) fonts_src fonts_dest p x
                      \/ R_cat (files w) img_src img_dest p x)
    (files w) (files (world_of ((copy_fonts ;; copy_images) w))).
Proof.
  set (R := fun p x => R_cat (files w) fonts_src fonts_dest p x
                       \/ R_cat (files w) img_src img_dest p x).
  assert (G1 : R_good R (files w) fonts_src fonts_dest).
  { split; [by left|].
    intros m x [H|H]; destruct H as (k & [E'|E'] & _); discriminate E'. }
  assert (G2 : R_good R (files w) img_src img_dest).
  { split; [by right|].
    intros m x [H|H]; destruct H as (k & [E'|E'] & _); discriminate E'. }
  apply (bind_inv (fun w' => changes R (files w) (files w'))).
  - rewrite copy_fonts_eq. by apply copy_glob_changes, changes_refl.
  - intros _ w1 _ Hch1. by apply copy_images_changes.
Qed.

(** C1: after a provisioning run that returned, with [src/static/js] a
    directory whose only entries matching [*.js] are the regular files
    [a.js] and [b.js], and with neither name taken by a directory in
    [build/static/js], [copy_static_assets] leaves [build/static/js/a.js] and
    [build/static/js/b.js] identical to their sources (contents and
    metadata) and leaves every other path below [build/static/js] as it was;
    so when nothing was there before, these two files are all there is. *)
Theorem copy_static_assets_two_js w0 bd w1 da sa db sb :
  ensure_build_dirs w0 = Ok bd w1 ->
  files w0 !! js_src = Some Dir ->
  files w0 !! (js_src ++ ["a.js"]) = Some (File da sa) ->
  files w0 !! (js_src ++ ["b.js"]) = Some (File db sb) ->
  (forall n, fnmatch "*.js" n = true -> is_Some (files w0 !! (js_src ++ [n])) ->
     n = "a.js" \/ n = "b.js") ->
  files w0 !! (js_dest ++ ["a.js"]) <> Some Dir ->
  files w0 !! (js_dest ++ ["b.js"]) <> Some Dir ->
  let w2 := world_of (copy_static_assets w1) in
  files w2 !! (js_dest ++ ["a.js"]) = Some (File da sa)
  /\ files w2 !! (js_dest ++ ["b.js"]) = Some (File db sb)
  /\ (forall p, under js_dest p -> p <> js_dest ++ ["a.js"] ->
        p <> js_dest ++ ["b.js"] -> files w2 !! p = files w0 !! p)
  /\ ((forall p, under js_dest p -> files w0 !! p = None) ->
      forall p, under js_dest p -> p <> js_dest ++ ["a.js"] ->
        p <> js_dest ++ ["b.js"] -> files w2 !! p = None).
Proof.
  intros Hens Hdir Ha Hb Honly Hda Hdb. cbn zeta.
  pose proof (ensure_build_dirs_inv _ _ _ Hens) as (_ & _ & Hdirs).
  assert (Hjd : files w1 !! js_dest = Some Dir).
  { apply Hdirs; [unfold build_tree; in_list|done]. }
  assert (Hsame : forall p, under js_dest p \/ under js_src p ->
            files w1 !! p = files w0 !! p).
  { intros p Hp. apply (provisioned_lookup _ _ _ _ Hens).
    destruct Hp as [Hp|Hp]; (eapply under_not_build_tree; [|exact Hp]); done. }
  assert (Hu : forall d n, under d (d ++ [n])) by (intros d n; by exists [n]).
  set (l := filter (fun n => fnmatch "*.js" n = true) (listdir (files w1) js_src)).
  assert (Hl : forall n, n ∈ l <-> n = "a.js" \/ n = "b.js").
  { intros n. unfold l. rewrite list_elem_of_filter, elem_of_listdir.
    rewrite Hsame by (right; apply Hu). split.
    - intros [? ?]. by apply Honly.
    - intros [-> | ->]; (split; [reflexivity|eauto]). }
  destruct (copy_loop_plain js_src js_dest l w1 apart_js Hjd) as (w' & Hrun & _ & Hcop & Hoth).
  { intros n [-> | ->]%Hl; rewrite Hsame by (left; apply Hu); done. }
  { intros n [-> | ->]%Hl; rewrite Hsame by (right; apply Hu); eauto. }
  assert (Hjs : copy_js_files w1 = Ok tt w').
  { rewrite copy_js_files_eq, copy_glob_unfold.
    assert (is_dir_fs (files w1) js_src = true) as ->; [|exact Hrun].
    unfold is_dir_fs. simpl.
    by rewrite (provisioned_keeps _ _ _ _ _ Hens Hdir). }
  unfold copy_static_assets. rewrite (bind_ok _ _ _ _ _ Hjs).
  pose proof (fonts_images_changes w') as Hch.
  set (w2 := world_of ((copy_fonts;; copy_images) w')) in *. clearbody w2.
  assert (Hkeep : forall p, under js_dest p -> files w2 !! p = files w' !! p).
  { intros p (rest & Hr & ->). apply (changes_outside _ _ _ _ Hch).
    intros x [H|H]; destruct H as (k & [E|E] & _); discriminate E. }
  assert (Hrest : forall p, under js_dest p -> p <> js_dest ++ ["a.js"] ->
            p <> js_dest ++ ["b.js"] -> files w2 !! p = files w0 !! p).
  { intros p Hp Na Nb. rewrite Hkeep by done. rewrite Hoth.
    - apply Hsame. by left.
    - intros n [-> | ->]%Hl; done. }
  split; [|split; [|split; [exact Hrest|]]].
  - rewrite Hkeep by apply Hu. rewrite Hcop by (apply Hl; by left).
    rewrite Hsame by (right; apply Hu). done.
  - rewrite Hkeep by apply Hu. rewrite Hcop by (apply Hl; by right).
    rewrite Hsame by (right; apply Hu). done.
  - intros Hfresh p Hp Na Nb. rewrite Hrest by done. by apply Hfresh.
Qed.

Lemma copy_static_assets_two_js_witness :
  exists w1,
    ensure_build_dirs two_js_world = Ok ["build"] w1
    /\ let w2 := world_of (copy_static_assets w1) in
       files w2 !! (js_dest ++ ["a.js"]) = Some (File "let a = 1;" (Stat 420 7))
       /\ files w2 !! (js_dest ++ ["b.js"]) = Some (File "let b = 2;" (Stat 384 8))
       /\ (forall p, under js_dest p -> p <> js_dest ++ ["a.js"] ->
             p <> js_dest ++ ["b.js"] -> files w2 !! p = files two_js_world !! p)
       /\ ((forall p, under js_dest p -> files two_js_world !! p = None) ->
           forall p, under js_dest p -> p <> js_dest ++ ["a.js"] ->
             p <> js_dest ++ ["b.js"] -> files w2 !! p = None).
Proof.
  eexists. split; [vm_compute; reflexivity|].
  eapply (copy_static_assets_two_js two_js_world).
  - vm_compute. reflexivity.
  - vm_compute. reflexivity.
  - vm_compute. reflexivity.
  - vm_compute. reflexivity.
  - intros n Hpat [x Hx].
    assert (Hin : n ∈ listdir (files two_js_world) js_src)
      by (apply elem_of_listdir; eauto).
    vm_compute in Hin.
    repeat (apply elem_of_cons in Hin as [->|Hin]); auto.
    + vm_compute in Hpat. discriminate Hpat.
    + by apply elem_of_nil in Hin.
  - vm_compute. discriminate.
  - vm_compute. discriminate.
Defined.

(** ** Copies that are in place stay in place *)


Lemma print_quiet line w u w' : print line w = Ok u w' -> quiet w w'.
Proof. unfold print. intros [= _ <-]. done. Qed.


Lemma copy_body_synced_step sd dd x y w u w2 :
  apart sd dd ->
  synced (files w) (sd ++ [x]) (dd ++ [x]) ->
  copy_body dd (sd ++ [y]) w = Ok u w2 ->
  synced (files w2) (sd ++ [x]) (dd ++ [x]).
Proof.
  intros Hap Hsy (w' & Hc & Hf & _)%copy_body_ok_inv. rewrite Hf.
  rewrite name_snoc in Hc.
  destruct (decide (x = y)) as [->|Hne]; [by eapply copy2_establishes|].
  apply copy2_ok_inv in Hc as (data & st & Hs & _ & Hd & ->). cbn [files set_fs].
  set (k := dest_of (files w) (sd ++ [y]) (dd ++ [y])) in *.
  eapply (synced_changes (fun p _ => p = k)); [exact Hsy| | |].
  - by apply changes_insert.
  - intros _ E. destruct (Hap x y) as [H1 H2].
    destruct (dest_of_cases (files w) sd dd y) as [Ek|Ek]; fold k in Ek; congruence.
  - intros _ E.
    destruct (dest_of_cases (files w) sd dd y) as [Ek|Ek]; fold k in Ek;
      destruct (dest_of_cases (files w) sd dd x) as [Ex|Ex];
      rewrite Ek, Ex in E; apply app_inv_head in E; simplify_eq.
Qed.

Lemma copy_glob_synced sd dd pattern w u w1 :
  apart sd dd ->
  copy_glob sd dd pattern w = Ok u w1 ->
  is_dir_fs (files w) sd = true ->
  forall n, fnmatch pattern n = true -> is_Some (files w !! (sd ++ [n])) ->
    synced (files w1) (sd ++ [n]) (dd ++ [n]).
Proof.
  intros Hap Hrun Hd n Hpat Hn. rewrite copy_glob_unfold, Hd in Hrun.
  pose proof (for_each_ok_post
    (fun f w' => synced (files w') f (dd ++ [name f]))
    (map (fun n => sd ++ [n])
         (filter (fun n => fnmatch pattern n = true) (listdir (files w) sd)))
    (copy_body dd)) as Hpost.
  rewrite <- (name_snoc sd n) at 2.
  eapply Hpost; [| |exact Hrun|].
  - intros x w2 u2 w3 _ (w' & Hc & Hf & _)%copy_body_ok_inv. rewrite Hf.
    by eapply copy2_establishes.
  - intros x y w2 u2 w3 (a & -> & _)%list_elem_of_fmap (b & -> & _)%list_elem_of_fmap.
    rewrite name_snoc. by apply copy_body_synced_step.
  - apply list_elem_of_fmap. exists n. split; [done|].
    apply list_elem_of_filter. split; [done|]. by apply elem_of_listdir.
Qed.

Lemma copy_body_is_file sd dd x y w u w2 :
  apart sd dd ->
  copy_body dd (sd ++ [y]) w = Ok u w2 ->
  is_file_fs (files w2) (sd ++ [x]) = is_file_fs (files w) (sd ++ [x]).
Proof.
  intros Hap (w' & Hc & Hf & _)%copy_body_ok_inv. rewrite Hf.
  rewrite name_snoc in Hc.
  apply copy2_ok_inv in Hc as (data & st & Hs & _ & Hd & ->). cbn [files set_fs].
  unfold is_file_fs. rewrite !node_at_snoc. rewrite lookup_insert_ne; [done|].
  destruct (Hap x y) as [H1 H2].
  destruct (dest_of_cases (files w) sd dd y) as [Ek|Ek]; rewrite Ek; by apply not_eq_sym.
Qed.

Lemma copy_images_synced w u w1 :
  copy_images w = Ok u w1 ->
  files w !! img_src = Some Dir ->
  forall n, is_Some (files w !! (img_src ++ [n])) ->
    is_file_fs (files w1) (img_src ++ [n]) = true ->
    synced (files w1) (img_src ++ [n]) (img_dest ++ [n]).
Proof.
  intros Hrun Hd n Hn. rewrite copy_images_unfold in Hrun.
  change (node_at (files w) img_src) with (files w !! img_src) in Hrun.
  rewrite Hd in Hrun.
  pose proof (for_each_ok_post
    (fun f w' => is_file_fs (files w') f = true ->
                 synced (files w') f (img_dest ++ [name f]))
    (map (fun n => img_src ++ [n]) (listdir (files w) img_src))
    (copy_body_if_file img_dest)) as Hpost.
  rewrite <- (name_snoc img_src n) at 3.
  eapply Hpost; [| |exact Hrun|].
  - intros x w2 u2 w3 _. unfold copy_body_if_file. monad_simpl.
    destruct (is_file_fs (files w2) x) eqn:Ef.
    + intros (w' & Hc & Hf & _)%copy_body_ok_inv _. rewrite Hf.
      by eapply copy2_establishes.
    + intros [= _ <-]. congruence.
  - intros x y w2 u2 w3 (a & -> & _)%list_elem_of_fmap (b & -> & _)%list_elem_of_fmap.
    rewrite name_snoc. unfold copy_body_if_file. monad_simpl.
    destruct (is_file_fs (files w2) (img_src ++ [b])) eqn:Ef.
    + intros HP Hb Ha.
      rewrite (copy_body_is_file _ _ a b _ _ _ apart_img Hb) in Ha.
      eapply copy_body_synced_step; [apply apart_img|by apply HP|exact Hb].
    + intros HP [= _ <-]. done.
  - apply list_elem_of_fmap. exists n. split; [done|]. by apply elem_of_listdir.
Qed.

(** ** A second pass over copies that are in place *)




(** ** Writing the page *)

Lemma write_file_ok_inv p data w u w1 :
  write_file p data w = Ok u w1 ->
  exists mode,
    files w !! p <> Some Dir
    /\ (forall d st, files w !! p = Some (File d st) -> mode = st_mode st)
    /\ w1 = set_fs w (<[p := File data (Stat mode (clock w))]> (files w)).
Proof.
  unfold write_file. monad_simpl. unfold set_fs.
  destruct (node_at (files w) p) as [[d st|]|] eqn:Hp; try done.
  - assert (Hp' : files w !! p = Some (File d st)) by (by destruct p).
    intros [= <-]. exists (st_mode st). rewrite Hp'. split; [done|]. split; [|done].
    by intros ? ? [= _ <-].
  - assert (Hp' : files w !! p = None) by (by destruct p).
    destruct (node_at (files w) (parent p)) as [[|]|]; try done.
    intros [= <-]. exists (new_file_mode (umask w)). rewrite Hp'. done.
Qed.


Lemma lift_ok_inv {A} (r : exn + A) w a w1 : lift r w = Ok a w1 -> r = inr a /\ w1 = w.
Proof. destruct r; [done|]. by intros [= <- <-]. Qed.

Lemma render_template_ok_inv (J : Engine) env template_name output_path ctx w u w1 :
  render_template J env template_name output_path (Some ctx) w = Ok u w1 ->
  exists source t html w',
    get_source env (files w) template_name = inr source
    /\ compile J env source = inr t
    /\ render J env (template_tree env (files w)) t ctx = inr html
    /\ write_file output_path html w = Ok tt w'
    /\ quiet w' w1.
Proof.
  unfold render_template. cbn zeta.
  intros (t & wa & Hget & H)%bind_ok_inv.
  apply bind_ok_inv in H as (html & wb & Hren & H).
  apply bind_ok_inv in H as ([] & wc & Hwr & Hpr).
  apply print_quiet in Hpr.
  unfold get_template in Hget.
  apply bind_ok_inv in Hget as (fs & w2 & [= <- <-] & Hget).
  apply bind_ok_inv in Hget as (source & w3 & [Hsrc ->]%lift_ok_inv & [Hcomp ->]%lift_ok_inv).
  unfold template_render in Hren.
  apply bind_ok_inv in Hren as (fs & w4 & [= <- <-] & [Hr ->]%lift_ok_inv).
  by exists source, t, html, wc.
Qed.


(** ** The source tree is read, never written *)


Lemma same_src_template_tree fs fs1 :
  same_src fs fs1 -> template_tree jinja_env fs1 = template_tree jinja_env fs.
Proof.
  intros H. apply map_eq. intros p. unfold template_tree.
  destruct (decide (loader jinja_env `prefix_of` p)) as [Hp|Hp].
  - destruct Hp as [r ->]. simpl loader. simpl app.
    destruct (fs1 !! ("src" :: "templates" :: r)) as [x|] eqn:E1;
      destruct (fs !! ("src" :: "templates" :: r)) as [y|] eqn:E2.
    + rewrite (map_lookup_filter_Some_2 _ _ _ _ E1) by (by eexists).
      rewrite (map_lookup_filter_Some_2 _ _ _ _ E2) by (by eexists).
      rewrite H in E1. congruence.
    + rewrite H in E1. congruence.
    + rewrite H in E1. congruence.
    + by rewrite !map_lookup_filter_None_2 by (by left).
  - rewrite !map_lookup_filter_None_2; [done|right..]; intros x _ Hx; by apply Hp.
Qed.

Lemma same_src_get_source fs fs1 template_name :
  same_src fs fs1 ->
  get_source jinja_env fs1 template_name = get_source jinja_env fs template_name.
Proof.
  intros H. unfold get_source.
  destruct (split_template_path template_name) as [pieces|]; [|done].
  simpl loader. simpl app. simpl node_at. by rewrite H.
Qed.

(** ** Copies of one category survive the other steps of the build *)

Lemma R_cat_good fs0 sd dd : apart sd dd -> R_good (R_cat fs0 sd dd) fs0 sd dd.
Proof.
  intros Hap. split; [done|]. intros n x (m & [E|E] & _); by destruct (Hap n m).
Qed.

Lemma synced_other_category sd dd sd' dd' fs0 fs fs' n :
  (sd, dd) ∈ categories -> (sd', dd') ∈ categories -> dd <> dd' ->
  synced fs (sd ++ [n]) (dd ++ [n]) ->
  changes (R_cat fs0 sd' dd') fs fs' ->
  synced fs' (sd ++ [n]) (dd ++ [n]).
Proof.
  intros Hc Hc' Hne Hs Hch. unfold categories in Hc, Hc'.
  eapply synced_changes; [exact Hs|exact Hch| |].
  - intros x (m & [E|E] & _);
      repeat (apply elem_of_cons in Hc as [[= -> ->]|Hc]);
      repeat (apply elem_of_cons in Hc' as [[= -> ->]|Hc']);
      try (by apply elem_of_nil in Hc); try (by apply elem_of_nil in Hc');
      discriminate E.
  - intros x (m & HE & _).
    destruct (dest_of_cases fs sd dd n) as [Ek|Ek]; rewrite Ek in HE;
      destruct HE as [E|E];
      repeat (apply elem_of_cons in Hc as [[= -> ->]|Hc]);
      repeat (apply elem_of_cons in Hc' as [[= -> ->]|Hc']);
      try (by apply elem_of_nil in Hc); try (by apply elem_of_nil in Hc');
      try done; discriminate E.
Qed.




(** ** The whole build *)

Lemma print_eq line w : print line w = Ok tt (printed w line).
Proof. reflexivity. Qed.

(** A build that returned, step by step. *)
Lemma build_site_ok_inv (J : Engine) w0 u w1 :
  build_site J w0 = Ok u w1 ->
  exists wc wd1 wd2 we source t html mode t1,
    ensure_build_dirs (printed w0 "Building Tap Tempo Perfectionist...")
      = Ok ["build"] wc
    /\ copy_js_files (printed wc (nl +:+ "Copying static assets...")) = Ok tt wd1
    /\ copy_fonts wd1 = Ok tt wd2
    /\ copy_images wd2 = Ok tt we
    /\ get_source jinja_env (files we) "index.html" = inr source
    /\ compile J jinja_env source = inr t
    /\ render J jinja_env (template_tree jinja_env (files we)) t site_context
       = inr html
    /\ files we !! index_path <> Some Dir
    /\ (forall d st, files we !! index_path = Some (File d st) -> mode = st_mode st)
    /\ files w1 = <[index_path := File html (Stat mode t1)]> (files we).
Proof.
  unfold build_site. rewrite (bind_ok _ _ _ _ _ (print_eq _ _)).
  rewrite (bind_ok _ _ _ _ _ (setup_jinja_env_eq _)).
  intros (bd & wc & Hens & H)%bind_ok_inv.
  pose proof (ensure_build_dirs_inv _ _ _ Hens) as (-> & _ & _).
  rewrite (bind_ok _ _ _ _ _ (print_eq _ _)) in H.
  apply bind_ok_inv in H as ([] & we & Hcopy & H).
  rewrite (bind_ok _ _ _ _ _ (print_eq _ _)) in H.
  apply bind_ok_inv in H as ([] & wg & Hren & H).
  rewrite (bind_ok _ _ _ _ _ (print_eq _ _)) in H.
  rewrite print_eq in H. injection H as _ <-.
  unfold copy_static_assets in Hcopy.
  apply bind_ok_inv in Hcopy as ([] & wd1 & Hjs & Hcopy).
  apply bind_ok_inv in Hcopy as ([] & wd2 & Hfo & Him).
  apply render_template_ok_inv in Hren
    as (source & t & html & w' & Hsrc & Hcomp & Hr & Hwr & [Hq _]).
  apply write_file_ok_inv in Hwr as (mode & Hnd & Hmode & ->).
  cbn [files printed set_fs] in *.
  exists wc, wd1, wd2, we, source, t, html, mode,
    (clock (printed we (nl +:+ "Generating HTML pages..."))).
  repeat (split; [done|]). exact Hq.
Qed.

Lemma in_categories_js : (js_src, js_dest) ∈ categories.
Proof. unfold categories. in_list. Qed.

Lemma in_categories_fonts : (fonts_src, fonts_dest) ∈ categories.
Proof. unfold categories. in_list. Qed.

Lemma in_categories_img : (img_src, img_dest) ∈ categories.
Proof. unfold categories. in_list. Qed.

Lemma same_src_is_dir fs fs1 r :
  same_src fs fs1 -> is_dir_fs fs1 ("src" :: r) = is_dir_fs fs ("src" :: r).
Proof. intros H. unfold is_dir_fs. simpl. by rewrite H. Qed.

Lemma same_src_is_file fs fs1 r :
  same_src fs fs1 -> is_file_fs fs1 ("src" :: r) = is_file_fs fs ("src" :: r).
Proof. intros H. unfold is_file_fs. simpl. by rewrite H. Qed.

Lemma copy_glob_same_src sd dd pattern w u w1 :
  apart sd dd -> (forall n m, dd ++ [n] <> "src" :: m) ->
  (forall n m, dd ++ [n; n] <> "src" :: m) ->
  copy_glob sd dd pattern w = Ok u w1 ->
  changes (R_cat (files w) sd dd) (files w) (files w1)
  /\ same_src (files w) (files w1).
Proof.
  intros Hap H1 H2 Hrun.
  destruct (copy_glob_changes (R_cat (files w) sd dd) (files w) sd dd pattern w
              (R_cat_good _ _ _ Hap) (changes_refl _ _)) as [Hch _].
  rewrite Hrun in Hch. simpl in Hch. split; [done|].
  intros r. apply (changes_outside _ _ _ _ Hch).
  intros x (n & [E|E] & _); symmetry in E; [by apply H1 in E|by apply H2 in E].
Qed.

Lemma copy_images_same_src w u w1 :
  copy_images w = Ok u w1 ->
  changes (R_cat (files w) img_src img_dest) (files w) (files w1)
  /\ same_src (files w) (files w1).
Proof.
  intros Hrun.
  destruct (copy_images_changes (R_cat (files w) img_src img_dest) (files w) w
              (R_cat_good _ _ _ apart_img) (changes_refl _ _)) as [Hch _].
  rewrite Hrun in Hch. simpl in Hch. split; [done|].
  intros r. apply (changes_outside _ _ _ _ Hch).
  intros x (n & [E|E] & _); discriminate E.
Qed.



(** * Further properties of [main.py] *)

(** ** [ensure_build_dirs]: when it returns, and what it leaves otherwise *)

Lemma ensure_build_dirs_post w : provision_post w (world_of (ensure_build_dirs w)).
Proof.
  assert (Hrefl : forall w', provision_post w' w').
  { intros w'. exists (files w'). rewrite set_fs_same.
    split; [done|]. split; [apply dir_ext_refl|done]. }
  assert (Hstep : forall parents p w1, p ∈ build_tree -> provision_post w w1 ->
            provision_post w (world_of (mkdir parents true p w1))).
  { intros parents p w1 Hp Hw1. eapply provision_post_trans; [exact Hw1|].
    eapply mkdir_provision_post; [exact Hp|]. apply mkdir_gen_post. }
  unfold ensure_build_dirs. cbn zeta. simpl app.
  apply (bind_inv (provision_post w)).
  { apply Hstep; [unfold build_tree; in_list|apply Hrefl]. }
  intros _ w1 _ H1. apply (bind_inv (provision_post w)).
  { apply Hstep; [unfold build_tree; in_list|done]. }
  intros _ w2 _ H2. apply (bind_inv (provision_post w)).
  { apply Hstep; [unfold build_tree; in_list|done]. }
  intros _ w3 _ H3. apply (bind_inv (provision_post w)).
  { apply Hstep; [unfold build_tree; in_list|done]. }
  intros _ w4 _ H4. apply (bind_inv (provision_post w)).
  { apply Hstep; [unfold build_tree; in_list|done]. }
  intros _ w5 _ H5. exact H5.
Qed.

(** X1: on a well-formed state [ensure_build_dirs] returns exactly when
    none of the six paths of the build tree is a regular file, and what it
    returns is then the build root, in the state with these six paths made
    directories. *)
Theorem ensure_build_dirs_returns_iff w :
  wf (files w) ->
  ((exists bd w1, ensure_build_dirs w = Ok bd w1)
   <-> forall q, q ∈ build_tree -> is_file_fs (files w) q = false)
  /\ (forall bd w1, ensure_build_dirs w = Ok bd w1 ->
        bd = ["build"] /\ w1 = set_fs w (provision (files w))).
Proof.
  intros Hwf.
  assert (Hnf : forall bd w1, ensure_build_dirs w = Ok bd w1 ->
            forall q, q ∈ build_tree -> is_file_fs (files w) q = false).
  { intros bd w1 Hens q Hq.
    destruct (ensure_build_dirs_dirs _ _ _ Hwf Hens) as [_ Hd].
    apply ensure_build_dirs_inv in Hens as (_ & (fs1 & -> & E & _) & _).
    specialize (Hd q Hq). simpl in Hd. unfold is_file_fs.
    destruct q as [|a q]; [done|]. simpl.
    destruct (E (a :: q)) as [Heq|(Hnone & _)].
    - rewrite <- Heq, Hd. done.
    - by rewrite Hnone. }
  split; [split|].
  - intros (bd & w1 & Hens). by eapply Hnf.
  - intros H. eexists _, _. by apply ensure_build_dirs_run.
  - intros bd w1 Hens. pose proof (Hnf _ _ Hens) as H.
    rewrite (ensure_build_dirs_run w H) in Hens. by injection Hens as <- <-.
Qed.

Lemma ensure_build_dirs_returns_iff_witness :
  ((exists bd w1, ensure_build_dirs site_world = Ok bd w1)
   <-> forall q, q ∈ build_tree -> is_file_fs (files site_world) q = false)
  /\ (forall bd w1, ensure_build_dirs site_world = Ok bd w1 ->
        bd = ["build"] /\ w1 = set_fs site_world (provision (files site_world))).
Proof.
  apply (ensure_build_dirs_returns_iff site_world).
  apply (bool_decide_unpack _). vm_compute. exact I.
Defined.

(** X2: whatever its outcome, [ensure_build_dirs] only adds directories of
    the build tree: every entry that was there is still there unchanged, every
    difference is a new directory at one of the six paths, nothing is printed,
    clock and umask are kept, and a well-formed state stays well formed. *)
Theorem ensure_build_dirs_only_adds w :
  let w' := world_of (ensure_build_dirs w) in
  (forall q x, files w !! q = Some x -> files w' !! q = Some x)
  /\ (forall q, files w' !! q <> files w !! q ->
        q ∈ build_tree /\ files w !! q = None /\ files w' !! q = Some Dir)
  /\ stdout w' = stdout w
  /\ same_env w w'
  /\ (wf (files w) -> wf (files w')).
Proof.
  cbn zeta. destruct (ensure_build_dirs_post w) as (fs1 & -> & E & W).
  simpl. split; [|split; [|done]].
  - intros q x. by apply (dir_ext_lookup _ _ _ _ _ E).
  - intros q Hq. destruct (E q) as [?|(? & ? & ?)]; done.
Qed.

(** ** [render_template]: all or nothing *)

Lemma write_file_eq p data w :
  write_file p data w
  = match node_at (files w) p with
    | Some Dir => Raise IsADirectoryError w
    | Some (File _ st) =>
        Ok tt (set_fs w (<[p := File data (Stat (st_mode st) (clock w))]> (files w)))
    | None =>
        match node_at (files w) (parent p) with
        | None => Raise FileNotFoundError w
        | Some (File _ _) => Raise NotADirectoryError w
        | Some Dir =>
            Ok tt (set_fs w (<[p := File data (Stat (new_file_mode (umask w)) (clock w))]>
                               (files w)))
        end
    end.
Proof.
  unfold write_file. monad_simpl. unfold set_fs.
  by destruct (node_at (files w) p) as [[|]|].
Qed.

Lemma get_template_inv (J : Engine) env template_name w :
  match get_template J env template_name w with
  | Ok t w' =>
      w' = w /\ exists source,
        get_source env (files w) template_name = inr source
        /\ compile J env source = inr t
  | Raise e w' => w' = w
  end.
Proof.
  unfold get_template. monad_simpl.
  destruct (get_source env (files w) template_name) as [e|source]; [done|].
  cbn beta iota. destruct (compile J env source) as [e|t] eqn:E; [done|].
  split; [done|]. by exists source.
Qed.

Lemma template_render_inv (J : Engine) env t ctx w :
  match template_render J env t ctx w with
  | Ok html w' => w' = w /\ render J env (template_tree env (files w)) t ctx = inr html
  | Raise e w' => w' = w
  end.
Proof.
  unfold template_render. monad_simpl.
  by destruct (render J env (template_tree env (files w)) t ctx).
Qed.

Lemma render_template_outcome (J : Engine) env template_name output_path ctx w :
  match render_template J env template_name output_path ctx w with
  | Raise e w' => w' = w
  | Ok u w' =>
      exists source t html mode,
        get_source env (files w) template_name = inr source
        /\ compile J env source = inr t
        /\ render J env (template_tree env (files w)) t (default ∅ ctx) = inr html
        /\ files w !! output_path <> Some Dir
        /\ (forall d st, files w !! output_path = Some (File d st) ->
              mode = st_mode st)
        /\ (files w !! output_path = None -> mode = new_file_mode (umask w))
        /\ files w' = <[output_path := File html (Stat mode (clock w))]> (files w)
        /\ stdout w' = stdout w ++ ["Generated " +:+ path_str output_path]
        /\ same_env w w'
  end.
Proof.
  unfold render_template. cbn zeta.
  replace (match ctx with Some c => c | None => ∅ end) with (default ∅ ctx)
    by (by destruct ctx).
  unfold bind at 1.
  pose proof (get_template_inv J env template_name w) as Hget.
  destruct (get_template J env template_name w) as [t wa|e wa]; [|done].
  destruct Hget as (-> & source & Hsrc & Hcomp).
  unfold bind at 1.
  pose proof (template_render_inv J env t (default ∅ ctx) w) as Hren.
  destruct (template_render J env t (default ∅ ctx) w) as [html wb|e wb]; [|done].
  destruct Hren as (-> & Hr).
  unfold bind. rewrite write_file_eq.
  destruct output_path as [|a p] eqn:Hout; [done|].
  rewrite <- Hout in *.
  replace (node_at (files w) output_path) with (files w !! output_path)
    by (by rewrite Hout).
  destruct (files w !! output_path) as [[d st|]|] eqn:Hp; [|done|].
  - exists source, t, html, (st_mode st). repeat (split; [done|]).
    split; [by intros ? ? [= _ <-]|]. done.
  - destruct (node_at (files w) (parent output_path)) as [[|]|]; try done.
    exists source, t, html, (new_file_mode (umask w)). repeat (split; [done|]). done.
Qed.


(** ** [build_site]: what it may touch, and what it keeps *)

Lemma within_refl A fs : within A fs fs.
Proof. intros p. by left. Qed.

Lemma within_trans A fs fs1 fs2 : within A fs fs1 -> within A fs1 fs2 -> within A fs fs2.
Proof.
  intros H1 H2 p. destruct (H2 p) as [E|?]; [|by right]. rewrite E. apply H1.
Qed.

Lemma wf_insert_file fs p data st :
  wf fs -> node_at fs (parent p) = Some Dir -> fs !! p <> Some Dir ->
  wf (<[p := File data st]> fs).
Proof.
  intros Hwf Hpar Hp q x Hq. cbn beta.
  assert (Hstep : forall r, node_at fs r = Some Dir ->
                            node_at (<[p:=File data st]> fs) r = Some Dir).
  { intros r Hr. destruct r as [|a r]; [done|]. simpl in *.
    rewrite lookup_insert_ne; [done|]. intros ->. done. }
  apply Hstep. destruct (decide (p = q)) as [<-|Hne]; [done|].
  rewrite lookup_insert_ne in Hq by done. by apply (Hwf q x).
Qed.

Lemma copy2_wf src dst w : wf (files w) -> wf (files (world_of (copy2 src dst w))).
Proof.
  intros Hwf. rewrite copy2_eq. unfold copy2_result. cbn zeta.
  pose proof (dest_of_nonempty (files w) src dst) as Hk.
  set (k := dest_of (files w) src dst) in *. clearbody k.
  destruct (bool_decide (src = k) && exists_fs (files w) src); [done|].
  destruct (node_at (files w) src) as [[data st|]|]; try done.
  assert (Hkk : node_at (files w) k = files w !! k) by (by destruct k).
  rewrite Hkk. destruct (files w !! k) as [[d' st'|]|] eqn:Hd; try done.
  - simpl. apply wf_insert_file; [done| |by rewrite Hd]. by apply (Hwf k _ Hd).
  - destruct (node_at (files w) (parent k)) as [[|]|] eqn:Hp; try done.
    simpl. apply wf_insert_file; [done|done|by rewrite Hd].
Qed.

Lemma copy_body_wf dd f w : wf (files w) -> wf (files (world_of (copy_body dd f w))).
Proof.
  intros Hwf. unfold copy_body.
  apply (bind_inv (fun w' => wf (files w'))); [by apply copy2_wf|].
  intros _ w1 _ H. done.
Qed.

Lemma copy_static_assets_wf w :
  wf (files w) -> wf (files (world_of (copy_static_assets w))).
Proof.
  intros Hwf.
  assert (Hglob : forall sd dd pattern w1, wf (files w1) ->
            wf (files (world_of (copy_glob sd dd pattern w1)))).
  { intros sd dd pattern w1 H1. rewrite copy_glob_unfold.
    destruct (is_dir_fs (files w1) sd); [|done].
    apply (for_each_inv (fun w' => wf (files w'))); [|done].
    intros f w2 _. apply copy_body_wf. }
  unfold copy_static_assets. rewrite copy_js_files_eq, copy_fonts_eq.
  apply (bind_inv (fun w' => wf (files w'))); [by apply Hglob|].
  intros _ w1 _ H1.
  apply (bind_inv (fun w' => wf (files w'))); [by apply Hglob|].
  intros _ w2 _ H2. rewrite copy_images_unfold.
  destruct (node_at (files w2) img_src) as [[|]|]; try done.
  apply (for_each_inv (fun w' => wf (files w'))); [|done].
  intros f w3 _ H3. unfold copy_body_if_file. monad_simpl.
  destruct (is_file_fs (files w3) f); [by apply copy_body_wf|done].
Qed.

Lemma render_template_wf (J : Engine) env template_name output_path ctx w :
  wf (files w) ->
  wf (files (world_of (render_template J env template_name output_path ctx w))).
Proof.
  intros Hwf. unfold render_template. cbn zeta.
  apply (bind_inv (fun w' => wf (files w'))).
  { pose proof (get_template_inv J env template_name w) as H.
    destruct (get_template J env template_name w); simpl;
      [destruct H as [-> _]|subst]; done. }
  intros t w1 _ H1. apply (bind_inv (fun w' => wf (files w'))).
  { match goal with |- context [template_render J env t ?c w1] =>
      pose proof (template_render_inv J env t c w1) as H;
      destruct (template_render J env t c w1); simpl;
        [destruct H as [-> _]|subst]; done end. }
  intros html w2 _ H2. apply (bind_inv (fun w' => wf (files w'))); [|done].
  rewrite write_file_eq.
  destruct output_path as [|a p] eqn:Hout; [done|]. rewrite <- Hout.
  replace (node_at (files w2) output_path) with (files w2 !! output_path)
    by (by rewrite Hout).
  destruct (files w2 !! output_path) as [[d st|]|] eqn:Hp; try done.
  - simpl. apply wf_insert_file; [done| |by rewrite Hp]. by apply (H2 _ _ Hp).
  - destruct (node_at (files w2) (parent output_path)) as [[|]|] eqn:Hpar; try done.
    simpl. apply wf_insert_file; [done|done|by rewrite Hp].
Qed.

Lemma ensure_build_dirs_within w :
  within build_output (files w) (files (world_of (ensure_build_dirs w))).
Proof.
  destruct (ensure_build_dirs_post w) as (fs1 & -> & E & _). simpl.
  intros p. destruct (E p) as [?|(_ & _ & ?)]; [by left|right; by left].
Qed.

Lemma copy_static_assets_within w :
  within build_output (files w) (files (world_of (copy_static_assets w))).
Proof.
  destruct (R_copy_good (files w)) as (Hj & Hf & Hi).
  destruct (copy_static_assets_changes (R_copy (files w)) (files w) w Hj Hf Hi
              (changes_refl _ _)) as [Hch _].
  intros p. destruct (Hch p) as [?|(_ & data & st & _ & HR)]; [by left|right].
  destruct HR as [HR|[HR|HR]]; apply R_cat_under in HR as (n & Hu & _);
    unfold build_output; auto.
Qed.

Lemma render_template_within (J : Engine) env template_name ctx w :
  within build_output (files w)
    (files (world_of (render_template J env template_name index_path ctx w))).
Proof.
  pose proof (render_template_outcome J env template_name index_path ctx w) as H.
  destruct (render_template J env template_name index_path ctx w) as [u w'|e w'].
  - destruct H as (_ & _ & html & mode & _ & _ & _ & _ & _ & _ & Hf & _). simpl.
    rewrite Hf. intros p. destruct (decide (p = index_path)) as [->|Hne].
    + right. unfold build_output. auto.
    + left. by rewrite lookup_insert_ne.
  - subst. apply within_refl.
Qed.

(** What holds of the world however far [build_site] gets. *)
Lemma build_site_keeps (J : Engine) w :
  let w' := world_of (build_site J w) in
  within build_output (files w) (files w') /\ (wf (files w) -> wf (files w')).
Proof.
  cbn zeta.
  set (I := fun w' => within build_output (files w) (files w')
                      /\ (wf (files w) -> wf (files w'))).
  assert (Hprint : forall line w1, I w1 -> I (world_of (print line w1))) by done.
  assert (Hens : forall w1, I w1 -> I (world_of (ensure_build_dirs w1))).
  { intros w1 [W1 F1]. split.
    - eapply within_trans; [exact W1|apply ensure_build_dirs_within].
    - intros Hwf. destruct (ensure_build_dirs_post w1) as (fs1 & -> & _ & W).
      simpl. by apply W, F1. }
  assert (Hcopy : forall w1, I w1 -> I (world_of (copy_static_assets w1))).
  { intros w1 [W1 F1]. split.
    - eapply within_trans; [exact W1|apply copy_static_assets_within].
    - intros Hwf. by apply copy_static_assets_wf, F1. }
  assert (Hren : forall w1, I w1 ->
            I (world_of (render_template J jinja_env "index.html" index_path
                           (Some site_context) w1))).
  { intros w1 [W1 F1]. split.
    - eapply within_trans; [exact W1|apply render_template_within].
    - intros Hwf. by apply render_template_wf, F1. }
  assert (H0 : I w) by (split; [apply within_refl|done]).
  unfold build_site.
  apply (bind_inv I); [by apply Hprint|].
  intros _ w1 _ H1. rewrite (bind_ok _ _ _ _ _ (setup_jinja_env_eq _)).
  apply (bind_inv I); [by apply Hens|].
  intros bd w2 Hbd H2. apply ensure_build_dirs_inv in Hbd as (-> & _ & _).
  apply (bind_inv I); [by apply Hprint|].
  intros _ w3 _ H3. apply (bind_inv I); [by apply Hcopy|].
  intros _ w4 _ H4. apply (bind_inv I); [by apply Hprint|].
  intros _ w5 _ H5. apply (bind_inv I); [by apply Hren|].
  intros _ w6 _ H6. apply (bind_inv I); [by apply Hprint|].
  intros _ w7 _ H7. by apply Hprint.
Qed.

Lemma build_output_below_build p : build_output p -> exists r, p = "build" :: r.
Proof.
  intros [H|[H|[H|[H|H]]]].
  - unfold build_tree in H.
    repeat (apply elem_of_cons in H as [->|H]); try (by eexists).
    by apply elem_of_nil in H.
  - destruct H as (r & _ & ->). by eexists.
  - destruct H as (r & _ & ->). by eexists.
  - destruct H as (r & _ & ->). by eexists.
  - subst. by eexists.
Qed.

(** X4: however far [build_site] gets, return or raise, every path whose
    entry differs afterwards is one of the six directories of the build tree,
    lies below one of the three asset destinations, or is
    [build/index.html]; so nothing outside [build], in particular no template
    and no source asset, is ever created, changed or removed. *)
Theorem build_site_footprint (J : Engine) w :
  let w' := world_of (build_site J w) in
  (forall p, files w' !! p <> files w !! p -> build_output p)
  /\ (forall p, (forall r, p <> "build" :: r) -> files w' !! p = files w !! p).
Proof.
  cbn zeta. destruct (build_site_keeps J w) as [Hw _]. split.
  - intros p Hp. destruct (Hw p); done.
  - intros p Hp. destruct (Hw p) as [?|Hb]; [done|].
    apply build_output_below_build in Hb as [r ->]. by destruct (Hp r).
Qed.

(** X5: [build_site] keeps the file system well formed: if every entry
    sits in a directory before, then so it does after, whether the build
    returned or raised part-way. *)
Theorem build_site_keeps_wf (J : Engine) w :
  wf (files w) -> wf (files (world_of (build_site J w))).
Proof. intros Hwf. by apply (build_site_keeps J w). Qed.

Lemma build_site_keeps_wf_witness :
  wf (files (world_of (build_site MiniJinja.engine site_world))).
Proof.
  apply (build_site_keeps_wf MiniJinja.engine site_world).
  apply (bool_decide_unpack _). vm_compute. exact I.
Defined.

(** ** [build_site] without its template *)

Lemma os_mkdir_raise_fs p w e w1 : os_mkdir p w = Raise e w1 -> is_fs_error e = true.
Proof.
  unfold os_mkdir. monad_simpl.
  destruct (node_at (files w) (parent p)) as [[|]|]; try (by intros [= <- _]).
  destruct (exists_fs (files w) p); [by intros [= <- _]|done].
Qed.

Lemma mkdir_single_raise_fs exist_ok p w e w1 :
  mkdir_single exist_ok p w = Raise e w1 -> is_fs_error e = true.
Proof.
  unfold mkdir_single, try_except.
  destruct (os_mkdir p w) as [u w'|e' w'] eqn:E; [done|].
  apply os_mkdir_raise_fs in E. monad_simpl.
  destruct (negb exist_ok || negb (is_dir_fs (files w') p)); [|done].
  by intros [= <- _].
Qed.

Lemma mkdir_parents_raise_fs rp : forall w e w1,
  mkdir_parents rp w = Raise e w1 -> is_fs_error e = true.
Proof.
  induction rp as [|x rp IH]; intros w e w1.
  { apply mkdir_single_raise_fs. }
  cbn [mkdir_parents]. unfold try_except.
  destruct (os_mkdir (rev (x :: rp)) w) as [u w'|e' w'] eqn:E; [done|].
  apply os_mkdir_raise_fs in E.
  assert (Hdflt : (d <- is_dir (rev (x :: rp)) ;;
                   if negb d then raise e' else ret tt) w' = Raise e w1 ->
                  is_fs_error e = true).
  { monad_simpl. destruct (negb (is_dir_fs (files w') (rev (x :: rp)))); [|done].
    by intros [= <- _]. }
  destruct e'; try exact Hdflt. clear Hdflt.
  unfold bind. destruct (mkdir_parents rp w') as [u w2|e2 w2] eqn:E2.
  - apply mkdir_single_raise_fs.
  - intros [= <- _]. by eapply IH.
Qed.

Lemma mkdir_raise_fs parents exist_ok p w e w1 :
  mkdir parents exist_ok p w = Raise e w1 -> is_fs_error e = true.
Proof.
  unfold mkdir, try_except.
  destruct (os_mkdir p w) as [u w'|e' w'] eqn:E; [done|].
  apply os_mkdir_raise_fs in E.
  assert (Hdflt : (d <- is_dir p ;;
                   if negb exist_ok || negb d then raise e' else ret tt) w'
                  = Raise e w1 -> is_fs_error e = true).
  { monad_simpl. destruct (negb exist_ok || negb (is_dir_fs (files w') p)); [|done].
    by intros [= <- _]. }
  destruct e'; try exact Hdflt. clear Hdflt.
  destruct (negb parents || bool_decide (parent p = p)); [by intros [= <- _]|].
  unfold bind. destruct (mkdir_parents (rev (parent p)) w') as [u w2|e2 w2] eqn:E2.
  - apply mkdir_single_raise_fs.
  - intros [= <- _]. by eapply mkdir_parents_raise_fs.
Qed.

Lemma bind_raise_inv {A B} (c : M A) (k : A -> M B) w e w1 :
  bind c k w = Raise e w1 ->
  c w = Raise e w1 \/ exists a w', c w = Ok a w' /\ k a w' = Raise e w1.
Proof. unfold bind. destruct (c w) as [a w'|e' w']; [eauto|]. intros [= <- <-]. by left. Qed.

Lemma ensure_build_dirs_raise_fs w e w1 :
  ensure_build_dirs w = Raise e w1 -> is_fs_error e = true.
Proof.
  unfold ensure_build_dirs. cbn zeta.
  intros [H|(? & ? & _ & H)]%bind_raise_inv; [by eapply mkdir_raise_fs|].
  apply bind_raise_inv in H as [H|(? & ? & _ & H)]; [by eapply mkdir_raise_fs|].
  apply bind_raise_inv in H as [H|(? & ? & _ & H)]; [by eapply mkdir_raise_fs|].
  apply bind_raise_inv in H as [H|(? & ? & _ & H)]; [by eapply mkdir_raise_fs|].
  apply bind_raise_inv in H as [H|(? & ? & _ & H)]; [by eapply mkdir_raise_fs|].
  done.
Qed.

Lemma copy_images_raise_fs w e w1 :
  copy_images w = Raise e w1 -> is_fs_error e = true.
Proof.
  rewrite copy_images_unfold.
  destruct (node_at (files w) img_src) as [[|]|]; try done.
  - by intros [= <- _].
  - intros (f & w2 & _ & H)%for_each_raise_inv.
    unfold copy_body_if_file, is_file, get_files, ret, bind in H.
    cbn beta iota in H.
    destruct (is_file_fs (files w2) f); [|done]. by eapply copy_body_raise_fs.
Qed.

Lemma copy_static_assets_raise_fs w e w1 :
  copy_static_assets w = Raise e w1 -> is_fs_error e = true.
Proof.
  unfold copy_static_assets. rewrite copy_js_files_eq, copy_fonts_eq.
  intros [H|(? & ? & _ & H)]%bind_raise_inv; [by eapply copy_glob_raise_fs|].
  apply bind_raise_inv in H as [H|(? & ? & _ & H)]; [by eapply copy_glob_raise_fs|].
  by eapply copy_images_raise_fs.
Qed.

Lemma resolves_same_src fs fs1 template_name :
  same_src fs fs1 -> resolves jinja_env fs1 template_name ->
  resolves jinja_env fs template_name.
Proof.
  intros H (pieces & data & st & Hs & Hn). exists pieces, data, st.
  split; [done|]. simpl loader in *. simpl app in *. simpl node_at in *.
  by rewrite <- H.
Qed.

(** X6: when the name [index.html] does not resolve under [src/templates],
    [build_site] never returns: it raises [TemplateNotFound], unless a
    file-system error of the provisioning or copying steps stops it earlier;
    either way [build/index.html] is left as it was. *)
Theorem build_site_without_template (J : Engine) w :
  ~ resolves jinja_env (files w) "index.html" ->
  exists e w',
    build_site J w = Raise e w'
    /\ (e = TemplateNotFound \/ is_fs_error e = true)
    /\ files w' !! index_path = files w !! index_path.
Proof.
  intros Hno. unfold build_site.
  rewrite (bind_ok _ _ _ _ _ (print_eq _ _)).
  rewrite (bind_ok _ _ _ _ _ (setup_jinja_env_eq _)).
  set (W1 := printed w _).
  destruct (ensure_build_dirs_post W1) as (fs2 & Hw2 & E2 & _).
  assert (Hidx2 : fs2 !! index_path = files w !! index_path).
  { destruct (E2 index_path) as [?|(_ & _ & Hin)]; [done|].
    unfold build_tree in Hin.
    repeat (apply elem_of_cons in Hin as [[=]|Hin]). by apply elem_of_nil in Hin. }
  assert (Hsrc2 : same_src (files w) fs2).
  { intros r. destruct (E2 ("src" :: r)) as [?|(_ & _ & Hin)]; [done|].
    unfold build_tree in Hin.
    repeat (apply elem_of_cons in Hin as [[=]|Hin]). by apply elem_of_nil in Hin. }
  destruct (ensure_build_dirs W1) as [bd w2|e w2] eqn:Hens; simpl in Hw2; subst w2.
  2:{ exists e, (set_fs W1 fs2). split; [by apply bind_raise|].
      split; [right; by eapply ensure_build_dirs_raise_fs|done]. }
  apply ensure_build_dirs_inv in Hens as Hbd. destruct Hbd as (-> & _ & _).
  rewrite (bind_ok _ _ _ _ _ Hens).
  rewrite (bind_ok _ _ _ _ _ (print_eq _ _)).
  set (W3 := printed _ _).
  destruct (R_copy_good (files W3)) as (Hj & Hf & Hi).
  destruct (copy_static_assets_changes (R_copy (files W3)) (files W3) W3 Hj Hf Hi
              (changes_refl _ _)) as [Hch _].
  assert (Hidx4 : files (world_of (copy_static_assets W3)) !! index_path
                  = files w !! index_path).
  { rewrite (changes_outside _ _ _ _ Hch); [done|].
    intros x [H|[H|H]]; destruct H as (n & [E|E] & _); discriminate E. }
  assert (Hsrc4 : same_src (files w) (files (world_of (copy_static_assets W3)))).
  { intros r. rewrite (changes_outside _ _ _ _ Hch); [apply Hsrc2|].
    intros x [H|[H|H]]; destruct H as (n & [E|E] & _); discriminate E. }
  destruct (copy_static_assets W3) as [u w4|e w4] eqn:Hcopy; simpl in Hidx4, Hsrc4.
  2:{ exists e, w4. split; [by apply bind_raise|].
      split; [right; by eapply copy_static_assets_raise_fs|done]. }
  rewrite (bind_ok _ _ _ _ _ Hcopy).
  rewrite (bind_ok _ _ _ _ _ (print_eq _ _)).
  exists TemplateNotFound, (printed w4 (nl +:+ "Generating HTML pages...")).
  split; [|split; [by left|done]].
  apply bind_raise. apply render_template_unresolved.
  intros Hres. apply Hno. by apply (resolves_same_src _ _ _ Hsrc4).
Qed.

Lemma build_site_without_template_witness :
  exists e w',
    build_site MiniJinja.engine two_js_world = Raise e w'
    /\ (e = TemplateNotFound \/ is_fs_error e = true)
    /\ files w' !! index_path = files two_js_world !! index_path.
Proof.
  apply (build_site_without_template MiniJinja.engine two_js_world).
  intros (pieces & data & st & Hs & Hn).
  vm_compute in Hs. injection Hs as <-. vm_compute in Hn. discriminate Hn.
Defined.

(** ** [copy_static_assets] run again *)



(** ** What [copy_static_assets] reports *)

Lemma NoDup_listdir fs d : NoDup (listdir fs d).
Proof.
  unfold listdir. pose proof (NoDup_fst_map_to_list fs) as Hnd.
  induction (map_to_list fs) as [|[p x] l IH]; simpl; [constructor|].
  apply NoDup_cons in Hnd as [Hp Hnd]. specialize (IH Hnd).
  destruct (child_of d p) as [n|] eqn:E; [|done].
  apply NoDup_cons. split; [|done].
  intros ([q y] & Hin & Hq)%list_elem_of_omap. simpl in Hq.
  apply child_of_spec in E, Hq. subst. apply Hp.
  apply list_elem_of_fmap. by exists (d ++ [n], y).
Qed.


Lemma image_files_perm fs fs1 :
  is_dir_fs fs1 img_src = is_dir_fs fs img_src ->
  (forall n, fs1 !! (img_src ++ [n]) = fs !! (img_src ++ [n])) ->
  image_files fs1 ≡ₚ image_files fs.
Proof.
  intros Hd Hn. unfold image_files. rewrite Hd.
  destruct (is_dir_fs fs img_src); [|done].
  apply NoDup_Permutation; try (apply NoDup_filter, NoDup_listdir).
  intros n. rewrite !list_elem_of_filter, !elem_of_listdir.
  unfold is_file_fs. rewrite !node_at_snoc. by rewrite Hn.
Qed.









(** ** What a run of [copy_static_assets] that returned has delivered *)

Lemma elem_of_selected fs sd pattern n :
  n ∈ selected fs sd pattern ->
  is_dir_fs fs sd = true /\ fnmatch pattern n = true /\ is_Some (fs !! (sd ++ [n])).
Proof.
  unfold selected. destruct (is_dir_fs fs sd); [|by intros ?%elem_of_nil].
  intros [Hp Hn%elem_of_listdir]%list_elem_of_filter. done.
Qed.

Lemma elem_of_image_files fs n :
  n ∈ image_files fs ->
  fs !! img_src = Some Dir /\ is_file_fs fs (img_src ++ [n]) = true
  /\ is_Some (fs !! (img_src ++ [n])).
Proof.
  unfold image_files, is_dir_fs.
  change (node_at fs img_src) with (fs !! img_src).
  destruct (fs !! img_src) as [[|]|]; try by intros ?%elem_of_nil.
  intros [Hp Hn%elem_of_listdir]%list_elem_of_filter. done.
Qed.

Lemma synced_delivered fs fs1 sd dd n :
  synced fs1 (sd ++ [n]) (dd ++ [n]) ->
  fs1 !! (sd ++ [n]) = fs !! (sd ++ [n]) ->
  is_dir_fs fs1 (dd ++ [n]) = is_dir_fs fs (dd ++ [n]) ->
  delivered fs fs1 sd dd n.
Proof.
  intros (data & st & Hs & _ & Hd) Hsrc Hdir. rewrite node_at_snoc in Hs.
  exists data, st. split; [congruence|]. split; [done|].
  unfold dest_of in *. by rewrite <- Hdir.
Qed.

Lemma copy_static_assets_delivered w u w1 :
  copy_static_assets w = Ok u w1 ->
  (forall n, n ∈ selected (files w) js_src "*.js" ->
     delivered (files w) (files w1) js_src js_dest n)
  /\ (forall n, n ∈ selected (files w) fonts_src "*.woff2" ->
        delivered (files w) (files w1) fonts_src fonts_dest n)
  /\ (forall n, n ∈ image_files (files w) ->
        delivered (files w) (files w1) img_src img_dest n).
Proof.
  unfold copy_static_assets.
  intros ([] & wd1 & Hjs & H)%bind_ok_inv.
  apply bind_ok_inv in H as ([] & wd2 & Hfo & Him).
  rewrite copy_js_files_eq in Hjs. rewrite copy_fonts_eq in Hfo.
  destruct (copy_glob_same_src _ _ _ _ _ _ apart_js
              ltac:(discriminate) ltac:(discriminate) Hjs) as [Cjs Sjs].
  destruct (copy_glob_same_src _ _ _ _ _ _ apart_fonts
              ltac:(discriminate) ltac:(discriminate) Hfo) as [Cfo Sfo].
  destruct (copy_images_same_src _ _ _ Him) as [Cim Sim].
  assert (Hdir : forall p, is_dir_fs (files w1) p = is_dir_fs (files w) p).
  { intros p. by rewrite (changes_is_dir _ _ _ _ Cim), (changes_is_dir _ _ _ _ Cfo),
                         (changes_is_dir _ _ _ _ Cjs). }
  assert (Hsrc : same_src (files w) (files w1)).
  { intros r. by rewrite Sim, Sfo, Sjs. }
  split; [|split].
  - intros n (Hd & Hpat & Hn)%elem_of_selected.
    apply synced_delivered; [|apply Hsrc|apply Hdir].
    eapply (synced_other_category _ _ img_src img_dest);
      [apply in_categories_js|apply in_categories_img|done| |exact Cim].
    eapply (synced_other_category _ _ fonts_src fonts_dest);
      [apply in_categories_js|apply in_categories_fonts|done| |exact Cfo].
    by eapply (copy_glob_synced _ _ _ _ _ _ apart_js Hjs).
  - intros n (Hd & Hpat & Hn)%elem_of_selected.
    apply synced_delivered; [|apply Hsrc|apply Hdir].
    eapply (synced_other_category _ _ img_src img_dest);
      [apply in_categories_fonts|apply in_categories_img|done| |exact Cim].
    eapply (copy_glob_synced _ _ _ _ _ _ apart_fonts Hfo); [|done|].
    + unfold fonts_src in *. simpl in *. by rewrite (same_src_is_dir _ _ _ Sjs).
    + unfold fonts_src in *. simpl in *. by rewrite Sjs.
  - intros n (Hd & Hfile & Hn)%elem_of_image_files.
    apply synced_delivered; [|apply Hsrc|apply Hdir].
    eapply (copy_images_synced _ _ _ Him).
    + unfold img_src in *. simpl in *. by rewrite Sfo, Sjs.
    + unfold img_src in *. simpl in *. by rewrite Sfo, Sjs.
    + unfold img_src in *. simpl in *. by rewrite (same_src_is_file _ _ _ Hsrc).
Qed.

(** X9: after a run of [copy_static_assets] that returned, every entry it
    selected (in [src/static/js] by [*.js], in [src/static/fonts] by
    [*.woff2], in [src/static/images] by being a regular file) was a regular
    file, is still in place unchanged, and has a copy with the same contents,
    mode and modification time below the matching directory of
    [build/static]. *)
Theorem copy_static_assets_delivers w u w1 :
  copy_static_assets w = Ok u w1 ->
  (forall n, n ∈ selected (files w) js_src "*.js" ->
     delivered (files w) (files w1) js_src js_dest n)
  /\ (forall n, n ∈ selected (files w) fonts_src "*.woff2" ->
        delivered (files w) (files w1) fonts_src fonts_dest n)
  /\ (forall n, n ∈ image_files (files w) ->
        delivered (files w) (files w1) img_src img_dest n).
Proof. apply copy_static_assets_delivered. Qed.

Lemma copy_static_assets_delivers_witness :
  exists w1,
    copy_static_assets site_provisioned = Ok tt w1
    /\ (forall n, n ∈ selected (files site_provisioned) js_src "*.js" ->
          delivered (files site_provisioned) (files w1) js_src js_dest n)
    /\ (forall n, n ∈ selected (files site_provisioned) fonts_src "*.woff2" ->
          delivered (files site_provisioned) (files w1) fonts_src fonts_dest n)
    /\ (forall n, n ∈ image_files (files site_provisioned) ->
          delivered (files site_provisioned) (files w1) img_src img_dest n).
Proof.
  eexists. split; [vm_compute; reflexivity|].
  eapply (copy_static_assets_delivers site_provisioned).
  vm_compute. reflexivity.
Defined.

(** ** The console log of [build_site] *)

Lemma logs_refl P w : logs P w w.
Proof. exists []. by rewrite app_nil_r. Qed.

Lemma logs_trans P w w1 w2 : logs P w w1 -> logs P w1 w2 -> logs P w w2.
Proof.
  intros (o1 & E1 & P1) (o2 & E2 & P2). exists (o1 ++ o2). split.
  - by rewrite E2, E1, app_assoc.
  - by apply Forall_app.
Qed.

Lemma logs_printed (P : string -> Prop) w line : P line -> logs P w (printed w line).
Proof. intros HP. exists [line]. split; [done|]. by apply Forall_singleton. Qed.

Lemma logs_set_fs P w fs : logs P w (set_fs w fs).
Proof. exists []. by rewrite app_nil_r. Qed.

Section Logs.
Variable P : string -> Prop.
Hypothesis P_copied : forall n, P (copied_line n).

Lemma copy_body_logs dd f w : logs P w (world_of (copy_body dd f w)).
Proof.
  unfold copy_body, bind.
  destruct (copy2 f (dd ++ [name f]) w) as [[] w1|e w1] eqn:E.
  - apply copy2_ok_inv in E as (data & st & _ & _ & _ & ->).
    eapply logs_trans; [apply logs_set_fs|]. apply logs_printed, P_copied.
  - apply copy2_raise in E as ->. apply logs_refl.
Qed.

Lemma copy_glob_logs sd dd pattern w :
  logs P w (world_of (copy_glob sd dd pattern w)).
Proof.
  rewrite copy_glob_unfold. destruct (is_dir_fs (files w) sd); [|apply logs_refl].
  apply (for_each_inv (logs P w)); [|apply logs_refl].
  intros x w1 _ H1. eapply logs_trans; [exact H1|apply copy_body_logs].
Qed.

Lemma copy_images_logs w : logs P w (world_of (copy_images w)).
Proof.
  rewrite copy_images_unfold.
  destruct (node_at (files w) img_src) as [[|]|]; try apply logs_refl.
  apply (for_each_inv (logs P w)); [|apply logs_refl].
  intros x w1 _ H1. eapply logs_trans; [exact H1|].
  unfold copy_body_if_file. monad_simpl.
  destruct (is_file_fs (files w1) x); [apply copy_body_logs|apply logs_refl].
Qed.

Lemma copy_static_assets_logs w : logs P w (world_of (copy_static_assets w)).
Proof.
  unfold copy_static_assets. rewrite copy_js_files_eq, copy_fonts_eq.
  apply (bind_inv (logs P w)); [apply copy_glob_logs|].
  intros _ w1 _ H1. apply (bind_inv (logs P w)).
  - eapply logs_trans; [exact H1|apply copy_glob_logs].
  - intros _ w2 _ H2. eapply logs_trans; [exact H2|apply copy_images_logs].
Qed.

End Logs.

Lemma copied_line_not_complete n : copied_line n <> complete_line.
Proof. unfold copied_line, complete_line, nl. rewrite !str_app_cons. discriminate. Qed.

Lemma log_of_failure w e w' :
  logs (fun l => l <> complete_line) w w' ->
  exists out,
    stdout (world_of (Raise e w' : outcome unit)) = stdout w ++ out
    /\ (complete_line ∈ out <-> exists u w'', (Raise e w' : outcome unit) = Ok u w'').
Proof.
  intros (out & E & HP). exists out. split; [done|]. split.
  - intros Hin. rewrite Forall_forall in HP. by destruct (HP _ Hin).
  - by intros (? & ? & ?).
Qed.

(** X10: whatever [build_site] does, the console shows the line
    [✓ Build complete!] among the lines of this run exactly when the build
    returned; a build that raised has not printed it. *)
Theorem build_site_complete_iff (J : Engine) w :
  exists out,
    stdout (world_of (build_site J w)) = stdout w ++ out
    /\ (complete_line ∈ out <-> exists u w', build_site J w = Ok u w').
Proof.
  set (P := fun l : string => l <> complete_line).
  assert (Hpr : forall w1 line, line <> complete_line -> logs P w w1 ->
            logs P w (printed w1 line)).
  { intros w1 line Hl H1. eapply logs_trans; [exact H1|by apply logs_printed]. }
  unfold build_site. rewrite (bind_ok _ _ _ _ _ (print_eq _ _)).
  rewrite (bind_ok _ _ _ _ _ (setup_jinja_env_eq _)).
  set (W0 := printed w _).
  assert (L0 : logs P w W0) by (apply Hpr; [done|apply logs_refl]).
  pose proof (ensure_build_dirs_post W0) as (fs1 & Hwc & _).
  destruct (ensure_build_dirs W0) as [bd wc|e wc] eqn:Hens; simpl in Hwc; subst wc.
  2:{ rewrite (bind_raise _ _ _ _ _ Hens). apply log_of_failure.
      eapply logs_trans; [exact L0|apply logs_set_fs]. }
  rewrite (bind_ok _ _ _ _ _ Hens). rewrite (bind_ok _ _ _ _ _ (print_eq _ _)).
  set (W3 := printed (set_fs W0 fs1) _).
  assert (L3 : logs P w W3).
  { apply Hpr; [done|]. eapply logs_trans; [exact L0|apply logs_set_fs]. }
  pose proof (copy_static_assets_logs P copied_line_not_complete W3) as Lc.
  destruct (copy_static_assets W3) as [[] w4|e w4] eqn:Hcopy; simpl in Lc.
  2:{ rewrite (bind_raise _ _ _ _ _ Hcopy). apply log_of_failure.
      by eapply logs_trans. }
  rewrite (bind_ok _ _ _ _ _ Hcopy). rewrite (bind_ok _ _ _ _ _ (print_eq _ _)).
  set (W5 := printed w4 _).
  assert (L5 : logs P w W5).
  { apply Hpr; [done|]. by eapply logs_trans. }
  pose proof (render_template_outcome J jinja_env "index.html"
                (bd ++ ["index.html"]) (Some site_context) W5) as Hren.
  destruct (render_template J jinja_env "index.html" (bd ++ ["index.html"])
              (Some site_context) W5) as [[] w6|e w6] eqn:Hrun.
  2:{ subst w6. rewrite (bind_raise _ _ _ _ _ Hrun). by apply log_of_failure. }
  destruct Hren as (source & t & html & mode & _ & _ & _ & _ & _ & _ & _ & Hout & _).
  rewrite (bind_ok _ _ _ _ _ Hrun). rewrite (bind_ok _ _ _ _ _ (print_eq _ _)).
  rewrite print_eq. destruct L5 as (out5 & E5 & _).
  eexists (out5 ++ ["Generated " +:+ path_str (bd ++ ["index.html"]); complete_line;
                    "Output directory: " +:+ path_str bd]).
  split.
  - simpl. rewrite Hout, E5. by rewrite <- !app_assoc.
  - split; [by eauto|]. intros _. apply elem_of_app. right. in_list.
Qed.




(** ** When [copy_static_assets] returns *)

Lemma selected_spec fs sd pattern n :
  n ∈ selected fs sd pattern
  <-> is_dir_fs fs sd = true /\ fnmatch pattern n = true /\ is_Some (fs !! (sd ++ [n])).
Proof.
  unfold selected. destruct (is_dir_fs fs sd).
  - rewrite list_elem_of_filter, elem_of_listdir.
    split; [by intros [? ?]|by intros (_ & ? & ?)].
  - split; [by intros ?%elem_of_nil|]. by intros [? _].
Qed.



Section Blocks.
Variables (R : path -> node -> Prop) (fs0 : FS).



End Blocks.




(** ** When [build_site] returns *)

Lemma provision_outside fs q : 3 < length q -> provision fs !! q = fs !! q.
Proof.
  intros Hl. rewrite lookup_provision. rewrite bool_decide_eq_false_2; [done|].
  intros Hq. unfold build_tree in Hq.
  repeat (apply elem_of_cons in Hq as [->|Hq]); simpl in Hl; try lia.
  by apply elem_of_nil in Hq.
Qed.

Lemma provision_same_src fs : same_src fs (provision fs).
Proof.
  intros r. rewrite lookup_provision. rewrite bool_decide_eq_false_2; [done|].
  intros Hq. unfold build_tree in Hq.
  repeat (apply elem_of_cons in Hq as [[=]|Hq]). by apply elem_of_nil in Hq.
Qed.



Lemma selected_same_src fs fs1 r pattern n :
  same_src fs fs1 ->
  n ∈ selected fs1 ("src" :: r) pattern <-> n ∈ selected fs ("src" :: r) pattern.
Proof.
  intros H. rewrite !selected_spec, (same_src_is_dir _ _ _ H). simpl. by rewrite H.
Qed.

Lemma image_files_same_src fs fs1 n :
  same_src fs fs1 -> n ∈ image_files fs1 <-> n ∈ image_files fs.
Proof.
  intros H. rewrite (image_files_perm fs fs1); [done| |].
  - apply (same_src_is_dir _ _ _ H).
  - intros m. apply H.
Qed.

Lemma ensure_build_dirs_ok_not_file w bd w1 :
  wf (files w) -> ensure_build_dirs w = Ok bd w1 ->
  forall q, q ∈ build_tree -> is_file_fs (files w) q = false.
Proof.
  intros Hwf Hens q Hq.
  destruct (ensure_build_dirs_dirs _ _ _ Hwf Hens) as [_ Hd].
  apply ensure_build_dirs_inv in Hens as (_ & (fs1 & -> & E & _) & _).
  specialize (Hd q Hq). simpl in Hd. unfold is_file_fs.
  destruct q as [|a q]; [done|]. simpl.
  destruct (E (a :: q)) as [Heq|(Hnone & _)].
  - rewrite <- Heq, Hd. done.
  - by rewrite Hnone.
Qed.

Lemma copy_static_assets_same_src w u w1 :
  copy_static_assets w = Ok u w1 ->
  same_src (files w) (files w1)
  /\ changes (R_copy (files w)) (files w) (files w1).
Proof.
  intros Hrun. split.
  - unfold copy_static_assets in Hrun.
    apply bind_ok_inv in Hrun as ([] & wd1 & Hjs & H).
    apply bind_ok_inv in H as ([] & wd2 & Hfo & Him).
    rewrite copy_js_files_eq in Hjs. rewrite copy_fonts_eq in Hfo.
    destruct (copy_glob_same_src _ _ _ _ _ _ apart_js
                ltac:(discriminate) ltac:(discriminate) Hjs) as [_ Sjs].
    destruct (copy_glob_same_src _ _ _ _ _ _ apart_fonts
                ltac:(discriminate) ltac:(discriminate) Hfo) as [_ Sfo].
    destruct (copy_images_same_src _ _ _ Him) as [_ Sim].
    intros r. by rewrite Sim, Sfo, Sjs.
  - destruct (R_copy_good (files w)) as (Gjs & Gfo & Gim).
    destruct (copy_static_assets_changes (R_copy (files w)) (files w) w Gjs Gfo Gim
                (changes_refl _ _)) as [Hch _].
    by rewrite Hrun in Hch.
Qed.




(** ** What a build that returned has built *)

Lemma delivered_build fs fe x sd dd n :
  (sd, dd) ∈ categories ->
  delivered (provision fs) fe sd dd n ->
  delivered fs (<[index_path := x]> fe) sd dd n.
Proof.
  intros Hc (data & st & Hs & Hs1 & Hk).
  assert (Hl : length sd = 3 /\ length dd = 3).
  { unfold categories in Hc.
    repeat (apply elem_of_cons in Hc as [[= -> ->]|Hc]); try done.
    by apply elem_of_nil in Hc. }
  destruct Hl as [Hls Hld].
  assert (Hne : forall p : path, 3 < length p -> index_path <> p).
  { intros p Hp <-. simpl in Hp. lia. }
  assert (Hk' : dest_of (provision fs) (sd ++ [n]) (dd ++ [n])
                = dest_of fs (sd ++ [n]) (dd ++ [n])).
  { unfold dest_of, is_dir_fs. rewrite !node_at_snoc.
    rewrite provision_outside; [done|]. rewrite length_app. simpl. lia. }
  rewrite Hk' in Hk. exists data, st. split; [|split].
  - rewrite <- Hs. symmetry. apply provision_outside. rewrite length_app. simpl. lia.
  - rewrite lookup_insert_ne; [done|]. apply Hne. rewrite length_app. simpl. lia.
  - rewrite lookup_insert_ne; [done|]. apply Hne.
    destruct (dest_of_cases fs sd dd n) as [-> | ->]; rewrite length_app; simpl; lia.
Qed.

(** X14: what a build that returned on a well-formed state leaves.  The six
    directories of the build tree exist; every script, font and image file
    selected in the initial state has a copy with the same contents, mode and
    modification time below [build/static]; and [build/index.html] holds the
    rendering, with the context of the page, of the template
    [src/templates/index.html] as it was when the build started. *)
Theorem build_site_result (J : Engine) w u w1 :
  wf (files w) ->
  build_site J w = Ok u w1 ->
  (forall q, q ∈ build_tree -> files w1 !! q = Some Dir)
  /\ (forall n, n ∈ selected (files w) js_src "*.js" ->
        delivered (files w) (files w1) js_src js_dest n)
  /\ (forall n, n ∈ selected (files w) fonts_src "*.woff2" ->
        delivered (files w) (files w1) fonts_src fonts_dest n)
  /\ (forall n, n ∈ image_files (files w) ->
        delivered (files w) (files w1) img_src img_dest n)
  /\ exists source t html st,
       get_source jinja_env (files w) "index.html" = inr source
       /\ compile J jinja_env source = inr t
       /\ render J jinja_env (template_tree jinja_env (files w)) t site_context
          = inr html
       /\ files w1 !! index_path = Some (File html st).
Proof.
  intros Hwf Hrun.
  apply build_site_ok_inv in Hrun
    as (wc & wd1 & wd2 & we & source & t & html & mode & t1
        & Hens & Hjs & Hfo & Him & Hsrc & Hcomp & Hr & Hnd & _ & Hf1).
  set (W0 := printed w "Building Tap Tempo Perfectionist...") in *.
  pose proof (ensure_build_dirs_ok_not_file W0 _ _ Hwf Hens) as Hnf.
  rewrite (ensure_build_dirs_run W0 Hnf) in Hens. injection Hens as <-.
  change (files W0) with (files w) in *.
  set (fs' := provision (files w)) in *.
  set (Wd := printed (set_fs W0 fs') (nl +:+ "Copying static assets...")) in *.
  assert (Hcopy : copy_static_assets Wd = Ok tt we).
  { unfold copy_static_assets.
    by rewrite (bind_ok _ _ _ _ _ Hjs), (bind_ok _ _ _ _ _ Hfo). }
  destruct (copy_static_assets_same_src _ _ _ Hcopy) as [Sc Hch].
  destruct (copy_static_assets_delivered _ _ _ Hcopy) as (Djs & Dfo & Dim).
  change (files Wd) with fs' in *.
  pose proof (provision_same_src (files w)) as Sp. fold fs' in Sp.
  assert (Sall : same_src (files w) (files we)).
  { intros r. by rewrite Sc, Sp. }
  rewrite Hf1. split; [|split; [|split; [|split]]].
  - intros q Hq. rewrite lookup_insert_ne.
    + apply (changes_dir _ _ _ _ Hch). unfold fs'. rewrite lookup_provision.
      by rewrite bool_decide_eq_true_2.
    + intros <-. unfold build_tree in Hq.
      repeat (apply elem_of_cons in Hq as [[=]|Hq]). by apply elem_of_nil in Hq.
  - intros n Hn. apply delivered_build; [apply in_categories_js|].
    apply Djs. by apply (selected_same_src (files w)).
  - intros n Hn. apply delivered_build; [apply in_categories_fonts|].
    apply Dfo. by apply (selected_same_src (files w)).
  - intros n Hn. apply delivered_build; [apply in_categories_img|].
    apply Dim. by apply (image_files_same_src (files w)).
  - exists source, t, html, (Stat mode t1). split; [|split; [done|split]].
    + by rewrite <- (same_src_get_source _ _ _ Sall).
    + by rewrite <- (same_src_template_tree _ _ Sall).
    + by rewrite lookup_insert_eq.
Qed.

Lemma build_site_result_witness :
  exists w1,
    build_site MiniJinja.engine site_world = Ok tt w1
    /\ (forall q, q ∈ build_tree -> files w1 !! q = Some Dir)
    /\ (forall n, n ∈ selected (files site_world) js_src "*.js" ->
          delivered (files site_world) (files w1) js_src js_dest n)
    /\ (forall n, n ∈ selected (files site_world) fonts_src "*.woff2" ->
          delivered (files site_world) (files w1) fonts_src fonts_dest n)
    /\ (forall n, n ∈ image_files (files site_world) ->
          delivered (files site_world) (files w1) img_src img_dest n)
    /\ exists source t html st,
         get_source jinja_env (files site_world) "index.html" = inr source
         /\ compile MiniJinja.engine jinja_env source = inr t
         /\ render MiniJinja.engine jinja_env
              (template_tree jinja_env (files site_world)) t site_context
            = inr html
         /\ files w1 !! index_path = Some (File html st).
Proof.
  eexists. split; [vm_compute; reflexivity|].
  eapply (build_site_result MiniJinja.engine site_world).
  - apply (bool_decide_unpack _). vm_compute. exact I.
  - vm_compute. reflexivity.
Defined.
